(** * Geofence evaluation of the GPS tracking function app

    A shallow embedding of [api/function_app.py]: the Python values the
    handlers manipulate, the exceptions they raise and catch, the effects
    they perform (log records, blob downloads, alert calls, outbound mail)
    and the functions [send_geofence_alert], [point_in_geofence],
    [process_geofence_event] and [list_gps_dates].

    Numbers: a finite binary64 number is a rational and is modelled as a
    [Q]; the one rounding operation of the application, the product of a
    distance by 111000, is rounded as binary64 rounds it ([F64.binary64]),
    and the nan a distance can be is [NaN]. A decimal of a payload stands
    for the binary64 number nearest to it. Infinities are left out: an
    infinite distance decides like any distance above 50.
    The geometry library (shapely) is not part of the application: it is
    an interface, [Shapely], over which the application is parametrised. *)

From Stdlib Require Import Ascii String QArith Qabs Qminmax Qround Lqa.
From stdpp Require Import base option list gmap strings sorting.

Local Open Scope string_scope.
Set Warnings "-register-all".

(** ** Python values, exceptions and the operators the handlers use *)

Module Py.

(** What [json.loads] can produce, which is also all the handlers touch;
    [VNaN] is the float nan. *)
Inductive value : Type :=
| VNone
| VBool (b : bool)
| VNum (q : Q)
| VNaN
| VStr (s : string)
| VList (l : list value)
| VDict (d : gmap string value).

(** The exception classes that occur; all derive from [Exception]. The last
    three stand for the failures of the geometry, storage and mail
    libraries. *)
Inductive exn : Type :=
| KeyError
| IndexError
| TypeError
| AttributeError
| ValueError
| GeometryError
| StorageError
| SendError.

Inductive result (A : Type) : Type :=
| Ok (a : A)
| Raise (e : exn).
Arguments Ok {A} a.
Arguments Raise {A} e.

Definition rbind {A B} (r : result A) (k : A → result B) : result B :=
  match r with
  | Ok a => k a
  | Raise e => Raise e
  end.

(** [v[k]] for a string key [k]. *)
Definition getitem (v : value) (k : string) : result value :=
  match v with
  | VDict d =>
      match d !! k with
      | Some x => Ok x
      | None => Raise KeyError
      end
  | _ => Raise TypeError
  end.

(** [v[0]]: first element of a list, first character of a string; a
    dictionary decoded from JSON has no integer key. *)
Definition getitem0 (v : value) : result value :=
  match v with
  | VList (x :: _) => Ok x
  | VList [] => Raise IndexError
  | VStr (String c _) => Ok (VStr (String c ""))
  | VStr "" => Raise IndexError
  | VDict _ => Raise KeyError
  | _ => Raise TypeError
  end.

(** [v == s] for a string literal [s]. *)
Definition eq_str (v : value) (s : string) : bool :=
  match v with
  | VStr s' => bool_decide (s' = s)
  | _ => false
  end.

(** [d.get(k)] and [d.get(k, default)]: a method of dictionaries only. *)
Definition get (v : value) (k : string) (dflt : value) : result value :=
  match v with
  | VDict d => Ok (default dflt (d !! k))
  | _ => Raise AttributeError
  end.

(** Truth value, as [or] and [if] test it. *)
Definition truthy (v : value) : bool :=
  match v with
  | VNone => false
  | VBool b => b
  | VNum q => negb (Qeq_bool q 0)
  | VNaN => true
  | VStr s => negb (bool_decide (s = ""))
  | VList l => match l with [] => false | _ => true end
  | VDict d => negb (bool_decide (size d = 0%nat))
  end.

Definition is_none (v : value) : bool :=
  match v with VNone => true | _ => false end.

(** A float: a finite binary64 number, or nan. *)
Inductive float64 : Type :=
| Finite (q : Q)
| NaN.

Definition float_value (x : float64) : value :=
  match x with
  | Finite q => VNum q
  | NaN => VNaN
  end.

(** The number a value stands for in an ordering comparison with an
    integer literal; other values make the comparison raise. *)
Definition number (v : value) : result float64 :=
  match v with
  | VNum q => Ok (Finite q)
  | VNaN => Ok NaN
  | VBool true => Ok (Finite 1)
  | VBool false => Ok (Finite 0)
  | _ => Raise TypeError
  end.

End Py.

(** ** Binary64 arithmetic *)

Module F64.
Import Py.
Local Open Scope Q_scope.

(** [2 ^ e] *)
Definition Qpow2 (e : Z) : Q :=
  if (0 <=? e)%Z then inject_Z (2 ^ e) else 1 # Z.to_pos (2 ^ (- e)).

(** The integer part of the binary logarithm of [q > 0]. *)
Definition Qlog2 (q : Q) : Z :=
  let k := (Z.log2 (Qnum q) - Z.log2 (Zpos (Qden q)))%Z in
  if Qle_bool (Qpow2 k) q then k else (k - 1)%Z.

(** The nearest integer, the even one of two nearest. *)
Definition round_half_even (q : Q) : Z :=
  let f := Qfloor q in
  match Qcompare (q - inject_Z f) (1 # 2) with
  | Lt => f
  | Gt => (f + 1)%Z
  | Eq => if Z.even f then f else (f + 1)%Z
  end.

(** The binary64 number nearest to [q], ties to even: 53 significant bits,
    or a multiple of [2 ^ -1074] below the normal range. Overflow to
    infinity is not modelled. *)
Definition binary64 (q : Q) : Q :=
  if Qeq_bool q 0 then 0
  else
    let e := Z.max (Qlog2 (Qabs q) - 52) (-1074) in
    Qred (inject_Z (round_half_even (q / Qpow2 e)) * Qpow2 e).

(** The binary64 number nearest to the square root of [q]. *)
Definition sqrt64 (q : Q) : Q :=
  if Qle_bool q 0 then 0
  else
    let e := (Qlog2 q / 2 - 52)%Z in
    let t := q / Qpow2 (2 * e) in
    let s := Z.sqrt (Qfloor t) in
    let m := match Qcompare t (inject_Z (s * s + s) + (1 # 4)) with
             | Lt => s
             | Gt => (s + 1)%Z
             | Eq => if Z.even s then s else (s + 1)%Z
             end in
    Qred (inject_Z m * Qpow2 e).

(** Float product, comparison and negation; nan propagates and compares
    false. *)
Definition fmul (a b : float64) : float64 :=
  match a, b with
  | Finite x, Finite y => Finite (binary64 (x * y))
  | _, _ => NaN
  end.

Definition fgt (a b : float64) : bool :=
  match a, b with
  | Finite x, Finite y => negb (Qle_bool x y)
  | _, _ => false
  end.

Definition fneg (a : float64) : float64 :=
  match a with
  | Finite x => Finite (- x)
  | NaN => NaN
  end.

End F64.

(** ** Effects: a read-only world, a trace of events, exceptions *)

Module Eff.
Import Py.

(** The message built by [Mail(...)]: a data holder, built without any
    outside call. The distance is already [abs(distance)]. *)
Record mail : Type := Mail {
  from_email : string;
  to_emails : option string;
  subject_device : string;
  body_lat : value;
  body_lon : value;
  body_distance : Q;
  body_time : string
}.

(** What the handlers read from outside: the process environment, the blob
    service ([from_connection_string conn], then per connection string and
    container: the container client, the listing of blob names, and the
    download of a blob already decoded by [json.loads], or the exception
    either step raised), the mail service and the clock. *)
Record world : Type := World {
  environ : gmap string string;
  from_connection_string : string → result ();
  get_container_client : string → string → result ();
  create_container : string → string → result ();
  download_blob : string → string → string → result value;
  list_blobs : string → string → result (list string);
  sendgrid_send : string → mail → result Z;
  utcnow : string
}.

Inductive level : Type := INFO | WARNING | ERROR.

(** One constructor per logging call of the source, with the values its
    format string interpolates; [MsgOutsideNaN] is the outside record of
    line 112 for a distance that is nan. *)
Inductive message : Type :=
| MsgAttempting
| MsgKeyNotFound
| MsgMockEmail (device_id : string) (lat lon : value)
| MsgSent (status_code : Z)
| MsgSendFailed (e : exn)
| MsgChecking (lat lon : value)
| MsgGeofenceError (e : exn)
| MsgProcessing (device_id : string) (event_body : value)
| MsgNoCoordinates
| MsgCoordinates (lat lon : value)
| MsgDownloading
| MsgInside (abs_distance : Q)
| MsgOutside (distance : Q)
| MsgOutsideNaN.

(** What a run leaves behind, in order. [Called_send_geofence_alert]
    marks the entry into [send_geofence_alert] with its arguments;
    [MailSend] is the call [SendGridAPIClient(key).send(message)]. *)
Inductive event : Type :=
| Log (l : level) (m : message)
| Called_send_geofence_alert (lat lon : value) (distance : Q) (device_id : string)
| BlobDownload (conn container blob : string)
| BlobList (conn container : string)
| MailSend (api_key : string) (m : mail).

(** A computation reads the world, leaves a trace and returns or raises. *)
Definition M (A : Type) : Type := world → result A * list event.

#[export] Instance M_ret : MRet M := λ A a _, (Ok a, []).

#[export] Instance M_bind : MBind M := λ A B k m w,
  match m w with
  | (Ok a, t) => let '(r, t') := k a w in (r, (t ++ t')%list)
  | (Raise e, t) => (Raise e, t)
  end.

Definition raise {A} (e : exn) : M A := λ _, (Raise e, []).

Definition lift {A} (r : result A) : M A := λ _, (r, []).

Definition emit (ev : event) : M unit := λ _, (Ok (), [ev]).

Definition ask : M world := λ w, (Ok w, []).

(** [try: m except Exception as e: h e] *)
Definition try_except {A} (m : M A) (h : exn → M A) : M A := λ w,
  match m w with
  | (Ok a, t) => (Ok a, t)
  | (Raise e, t) => let '(r, t') := h e w in (r, (t ++ t')%list)
  end.

Definition logger_info (m : message) : M unit := emit (Log INFO m).
Definition logger_warning (m : message) : M unit := emit (Log WARNING m).
Definition logger_error (m : message) : M unit := emit (Log ERROR m).

(** [os.environ[k]], [os.environ.get(k, d)], [os.getenv(k)] *)
Definition environ_getitem (k : string) : M string :=
  w ← ask;
  match environ w !! k with
  | Some v => mret v
  | None => raise KeyError
  end.

Definition environ_get (k dflt : string) : M string :=
  w ← ask; mret (default dflt (environ w !! k)).

Definition getenv (k : string) : M (option string) :=
  w ← ask; mret (environ w !! k).

Definition outcome {A} (r : result A * list event) : result A := r.1.
Definition trace {A} (r : result A * list event) : list event := r.2.

(** Observations on a trace: the entries into [send_geofence_alert], the
    blob downloads and the outbound send attempts. *)
Definition alert_calls (t : list event) : list (value * value * Q * string) :=
  omap (λ ev, match ev with
              | Called_send_geofence_alert lat lon distance device_id =>
                  Some (lat, lon, distance, device_id)
              | _ => None
              end) t.

Definition downloads (t : list event) : list (string * string * string) :=
  omap (λ ev, match ev with
              | BlobDownload conn container blob => Some (conn, container, blob)
              | _ => None
              end) t.

Definition send_attempts (t : list event) : list (string * mail) :=
  omap (λ ev, match ev with
              | MailSend api_key m => Some (api_key, m)
              | _ => None
              end) t.

End Eff.

(** ** The geometry library, as the application uses it *)

Module Geo.
Import Py.

(** [Point(x, y)], [Polygon(shell)], [polygon.contains(point)] and
    [point.distance(polygon.boundary)]; each may raise. *)
Class Shapely : Type := {
  point : Type;
  polygon : Type;
  Point : value → value → result point;
  Polygon : value → result polygon;
  contains : polygon → point → result bool;
  boundary_distance : point → polygon → result float64
}.

End Geo.

(** ** The function app *)

Module App.
Import Py F64 Eff Geo.

Section function_app.
Context {G : Shapely}.

Definition default_sender : string := "notifications@yourdomain.com".

(** [send_geofence_alert(lat, lon, distance, device_id)], lines 20-45. *)
Definition send_geofence_alert (lat lon : value) (distance : Q) (device_id : string) : M () :=
  emit (Called_send_geofence_alert lat lon distance device_id);;
  logger_info MsgAttempting;;
  key ← getenv "SendGridApiKey";
  match key with
  | None =>
      logger_warning MsgKeyNotFound;;
      logger_info (MsgMockEmail device_id lat lon)
  | Some _ =>
      sender ← environ_get "SenderEmail" default_sender;
      recipient ← getenv "AlertRecipientEmail";
      now ← (w ← ask; mret (utcnow w));
      let message := Mail sender recipient device_id lat lon (Qabs distance) now in
      try_except
        (api_key ← environ_getitem "SendGridApiKey";
         status ← (w ← ask;
                   emit (MailSend api_key message);;
                   lift (sendgrid_send w api_key message));
         logger_info (MsgSent status))
        (λ e, logger_error (MsgSendFailed e))
  end.

(** [get_or_create_container(name)], lines 47-55; the client is
    represented by its connection string and container name. *)
Definition get_or_create_container (name : string) : M (string * string) :=
  conn ← environ_getitem "STORAGE_CONNECTION_STRING";
  (w ← ask; lift (from_connection_string w conn));;
  try_except
    (w ← ask; lift (get_container_client w conn name);; mret (conn, name))
    (λ _, w ← ask; lift (create_container w conn name);; mret (conn, name)).

(** Lines 63-67: the geometry the boundary object resolves to. *)
Definition resolve_geometry (geofence_data : value) : result value :=
  rbind (getitem geofence_data "type") (λ ty,
  if eq_str ty "FeatureCollection" then
    rbind (getitem geofence_data "features") (λ features,
    rbind (getitem0 features) (λ feature,
    getitem feature "geometry"))
  else Ok geofence_data).

(** [... * 111000] and [... > 50], on floats. *)
Definition metres (degrees : float64) : float64 := fmul degrees (Finite 111000).

Definition gt50 (distance : float64) : bool := fgt distance (Finite 50).

(** Lines 70-74: the decision for a polygon built from [ring]. *)
Definition polygon_decision (pt : point) (ring : value) : result value :=
  rbind (Polygon ring) (λ poly,
  rbind (contains poly pt) (λ inside,
  if inside then
    rbind (boundary_distance pt poly) (λ d,
    let distance := metres d in
    Ok (if gt50 distance then VNum (-999) else float_value (fneg distance)))
  else
    rbind (boundary_distance pt poly) (λ d,
    if gt50 (metres d) then Ok (VNum 999)
    else rbind (boundary_distance pt poly) (λ d', Ok (float_value (metres d')))))).

(** Lines 69-74: nothing is returned for another geometry type, so the
    call yields [None]. *)
Definition geometry_decision (pt : point) (geometry : value) : result value :=
  rbind (getitem geometry "type") (λ ty,
  if eq_str ty "Polygon" then
    rbind (getitem geometry "coordinates") (λ coordinates,
    rbind (getitem0 coordinates) (λ ring,
    polygon_decision pt ring))
  else Ok VNone).

(** Lines 60-74: the body of the [try] statement. *)
Definition point_in_geofence_try (lat lon geofence_data : value) : M value :=
  pt ← lift (Point lon lat);
  logger_info (MsgChecking lat lon);;
  geometry ← lift (resolve_geometry geofence_data);
  lift (geometry_decision pt geometry).

(** [point_in_geofence(lat, lon, geofence_data)], lines 57-77. *)
Definition point_in_geofence (lat lon geofence_data : value) : M value :=
  try_except
    (point_in_geofence_try lat lon geofence_data)
    (λ e, logger_error (MsgGeofenceError e);; mret (VNum 999)).

(** Lines 84-86: [gps_data.get(k1) or gps_data.get(k2)]. *)
Definition get_or (gps_data : value) (k1 k2 : string) : result value :=
  rbind (get gps_data k1 VNone) (λ a,
  if truthy a then Ok a else get gps_data k2 VNone).

Definition extract_coordinates (event_body : value) : result (value * value) :=
  rbind (get event_body "gps" event_body) (λ gps_data,
  rbind (get_or gps_data "lat" "latitude") (λ lat,
  rbind (get_or gps_data "lon" "longitude") (λ lon,
  Ok (lat, lon)))).

(** Lines 95-103: the boundary object, fetched on every call. *)
Definition load_geofence : M value :=
  conn ← environ_getitem "STORAGE_CONNECTION_STRING";
  (w ← ask; lift (from_connection_string w conn));;
  container ← environ_get "GEOFENCE_CONTAINER" "geofences";
  blob ← environ_get "GEOFENCE_BLOB_NAME" "geofence/geofence.json";
  logger_info MsgDownloading;;
  emit (BlobDownload conn container blob);;
  w ← ask; lift (download_blob w conn container blob).

(** [process_geofence_event(event_body, device_id)], lines 79-112; a nan
    is not [<= 0], so it takes the [else] branch. *)
Definition process_geofence_event (event_body : value) (device_id : string) : M () :=
  logger_info (MsgProcessing device_id event_body);;
  '(lat, lon) ← lift (extract_coordinates event_body);
  if is_none lat || is_none lon then
    logger_error MsgNoCoordinates
  else
    logger_info (MsgCoordinates lat lon);;
    geofence_data ← load_geofence;
    distance ← point_in_geofence lat lon geofence_data;
    d ← lift (number distance);
    match d with
    | Finite d =>
        if Qle_bool d 0 then
          logger_info (MsgInside (Qabs d));;
          send_geofence_alert lat lon d device_id
        else
          logger_info (MsgOutside d)
    | NaN => logger_info MsgOutsideNaN
    end.

End function_app.

(** The message lines 29-39 build in world [w]. *)
Definition alert_mail (lat lon : value) (distance : Q) (device_id : string) (w : world) : mail :=
  Mail (default default_sender (environ w !! "SenderEmail"))
       (environ w !! "AlertRecipientEmail")
       device_id lat lon (Qabs distance) (utcnow w).

(** The decision value, as the test [distance <= 0] of line 108 sees it. *)
Definition decision_le0 (decision : result value) : Prop :=
  ∃ d, decision = Ok (VNum d) ∧ (d <= 0)%Q.

Definition decision_gt0 (decision : result value) : Prop :=
  ∃ d, decision = Ok (VNum d) ∧ (0 < d)%Q.

(** None of the four coordinate keys is present. *)
Definition lacks_coordinates (d : gmap string value) : Prop :=
  d !! "lat" = None ∧ d !! "latitude" = None ∧
  d !! "lon" = None ∧ d !! "longitude" = None.

(** The payload has no coordinate key, at top level or under [gps]. *)
Definition coordinates_absent (event_body : value) : Prop :=
  match event_body with
  | VDict d => lacks_coordinates d ∧ ∀ g, d !! "gps" = Some (VDict g) → lacks_coordinates g
  | _ => True
  end.

(** The payload is an object whose [gps] member, if any, is an object. *)
Definition well_formed_payload (event_body : value) : Prop :=
  match event_body with
  | VDict d => ∀ v, d !! "gps" = Some v → ∃ g, v = VDict g
  | _ => False
  end.

(** [blob.name.split('/')] *)
Fixpoint split (sep : ascii) (s : string) : list string :=
  match s with
  | EmptyString => [""]
  | String c s' =>
      if bool_decide (c = sep) then "" :: split sep s'
      else match split sep s' with
           | part :: parts => String c part :: parts
           | [] => [String c ""]
           end
  end.

(** Lines 167-169: the date a blob name contributes, if any. *)
Definition date_of (name : string) : option string :=
  match split "/"%char name with
  | _ :: y :: m :: d :: _ => Some (y ++ "-" ++ m ++ "-" ++ d)
  | _ => None
  end.

(** Lines 164-169: the loop over the listing. *)
Definition collect_dates (names : list string) : gset string :=
  foldl (λ dates name,
           match date_of name with
           | Some d => {[d]} ∪ dates
           | None => dates
           end) ∅ names.

(** [sorted(list(dates))] *)
Definition sorted (dates : gset string) : list string :=
  merge_sort String.le (elements dates).

Inductive body : Type :=
| JsonBody (v : value)
| ErrorBody (e : exn).

Record http_response : Type := HttpResponse {
  resp_body : body;
  status_code : Z;
  mimetype : option string
}.

(** [list_gps_dates(req)], lines 157-177; the request is not read. *)
Definition list_gps_dates : M http_response :=
  try_except
    ('(conn, container) ← get_or_create_container "gps-data";
     emit (BlobList conn container);;
     names ← (w ← ask; lift (list_blobs w conn container));
     let dates := collect_dates names in
     mret (HttpResponse (JsonBody (VList (VStr <$> sorted dates))) 200
             (Some "application/json")))
    (λ e, mret (HttpResponse (ErrorBody e) 500 None)).

End App.

(** ** A reference geometry

    An implementation of the [Shapely] interface on which the handlers can
    be run. Coordinates are rounded to binary64 when a point or a ring is
    built. Containment is exact: even-odd ray casting, the points of the
    ring itself excluded. The distance to the ring is computed as GEOS
    computes it, segment by segment in binary64 arithmetic
    ([Distance::pointToSegment]), and is nan for the empty polygon. A
    coordinate given as a string is refused, also a numeric one. *)

Module Planar.
Import Py F64 Geo.
Local Open Scope Q_scope.

Definition to_double (v : value) : option Q :=
  match v with
  | VNum q => Some (binary64 q)
  | VBool true => Some 1
  | VBool false => Some 0
  | _ => None
  end.

Definition coord (v : value) : result (Q * Q) :=
  match v with
  | VList (vx :: vy :: _) =>
      match to_double vx, to_double vy with
      | Some x, Some y => Ok (x, y)
      | _, _ => Raise TypeError
      end
  | VList _ => Raise ValueError
  | _ => Raise TypeError
  end.

Fixpoint coords (vs : list value) : result (list (Q * Q)) :=
  match vs with
  | [] => Ok []
  | v :: vs' => rbind (coord v) (λ c, rbind (coords vs') (λ cs, Ok (c :: cs)))
  end.

Definition mk_point (x y : value) : result (Q * Q) :=
  match to_double x, to_double y with
  | Some qx, Some qy => Ok (qx, qy)
  | _, _ => Raise TypeError
  end.

Definition same (a b : Q * Q) : bool := Qeq_bool a.1 b.1 && Qeq_bool a.2 b.2.

(** The ring of a shell: closed by repeating the first vertex when it is
    not closed already (always for three vertices), and of at least four
    vertices then; no vertex at all gives the empty polygon. *)
Definition close_ring (cs : list (Q * Q)) : list (Q * Q) :=
  match cs, last cs with
  | first :: _, Some final =>
      if bool_decide (length cs = 3%nat) || negb (same first final)
      then (cs ++ [first])%list else cs
  | _, _ => cs
  end.

Definition mk_polygon (shell : value) : result (list (Q * Q)) :=
  match shell with
  | VList vs =>
      rbind (coords vs) (λ cs,
      let ring := close_ring cs in
      if bool_decide (length ring = 0%nat) || bool_decide (4 ≤ length ring)%nat
      then Ok ring else Raise ValueError)
  | _ => Raise TypeError
  end.

(** The edges of a ring: consecutive vertices. *)
Definition edges (ring : list (Q * Q)) : list ((Q * Q) * (Q * Q)) :=
  zip ring (tail ring).

Definition Qlt_bool (a b : Q) : bool := negb (Qle_bool b a).

Definition on_segment (p : Q * Q) (e : (Q * Q) * (Q * Q)) : bool :=
  let '((ax, ay), (bx, by_)) := e in
  let '(px, py) := p in
  Qeq_bool ((bx - ax) * (py - ay)) ((by_ - ay) * (px - ax))
  && Qle_bool (Qmin ax bx) px && Qle_bool px (Qmax ax bx)
  && Qle_bool (Qmin ay by_) py && Qle_bool py (Qmax ay by_).

Definition on_ring (p : Q * Q) (ring : list (Q * Q)) : bool :=
  existsb (on_segment p) (edges ring).

(** Does the ray from [p] towards increasing x cross the edge? *)
Definition crosses (p : Q * Q) (e : (Q * Q) * (Q * Q)) : bool :=
  let '((ax, ay), (bx, by_)) := e in
  let '(px, py) := p in
  negb (eqb (Qlt_bool py ay) (Qlt_bool py by_))
  && Qlt_bool px (ax + (bx - ax) * (py - ay) / (by_ - ay)).

Definition interior (p : Q * Q) (ring : list (Q * Q)) : bool :=
  negb (on_ring p ring)
  && Nat.odd (length (filter (λ e, crosses p e = true) (edges ring))).

(** Binary64 sum, difference, product and quotient of two numbers. *)
Definition add64 (a b : Q) : Q := binary64 (a + b).
Definition sub64 (a b : Q) : Q := binary64 (a - b).
Definition mul64 (a b : Q) : Q := binary64 (a * b).
Definition div64 (a b : Q) : Q := binary64 (a / b).

(** [Coordinate::distance]: [sqrt(dx * dx + dy * dy)]. *)
Definition point_distance (p a : Q * Q) : Q :=
  let dx := sub64 p.1 a.1 in
  let dy := sub64 p.2 a.2 in
  sqrt64 (add64 (mul64 dx dx) (mul64 dy dy)).

(** [Distance::pointToSegment(p, A, B)]. *)
Definition point_to_segment (p : Q * Q) (e : (Q * Q) * (Q * Q)) : Q :=
  let '(a, b) := e in
  if same a b then point_distance p a
  else
    let bax := sub64 b.1 a.1 in
    let bay := sub64 b.2 a.2 in
    let len2 := add64 (mul64 bax bax) (mul64 bay bay) in
    let r := div64 (add64 (mul64 (sub64 p.1 a.1) bax) (mul64 (sub64 p.2 a.2) bay)) len2 in
    if Qle_bool r 0 then point_distance p a
    else if Qle_bool 1 r then point_distance p b
    else
      let s := div64 (sub64 (mul64 (sub64 a.2 p.2) bax) (mul64 (sub64 a.1 p.1) bay)) len2 in
      mul64 (Qabs s) (sqrt64 len2).

(** The least of the distances to the segments; nan without segments. *)
Definition ring_distance (p : Q * Q) (ring : list (Q * Q)) : float64 :=
  match point_to_segment p <$> edges ring with
  | [] => NaN
  | d :: ds => Finite (foldr Qmin d ds)
  end.

#[export] Instance planar : Shapely := {|
  point := Q * Q;
  polygon := list (Q * Q);
  Point := mk_point;
  Polygon := mk_polygon;
  contains := λ ring p, Ok (interior p ring);
  boundary_distance := λ p ring, Ok (ring_distance p ring)
|}.

End Planar.

(** ** Sample data *)

Module Sample.
Import Py F64 Eff Geo.
Local Open Scope Q_scope.

Definition xy (x y : Q) : value := VList [VNum x; VNum y].

(** The polygon of the specification's example: a box of 0.001 degrees. *)
Definition ring : value :=
  VList [xy 5.869 36.527; xy 5.870 36.527; xy 5.870 36.528; xy 5.869 36.528;
         xy 5.869 36.527].

Definition dict (kvs : list (string * value)) : value := VDict (list_to_map kvs).

Definition polygon_geometry : value :=
  dict [("type", VStr "Polygon"); ("coordinates", VList [ring])].

Definition point_geometry : value :=
  dict [("type", VStr "Point"); ("coordinates", xy 5.869 36.527)].

Definition feature (geometry : value) : value :=
  dict [("type", VStr "Feature"); ("geometry", geometry)].

Definition feature_collection (features : list value) : value :=
  dict [("type", VStr "FeatureCollection"); ("features", VList features)].

Definition ok_storage {A} (a : A) : string → string → result A := λ _ _, Ok a.

(** A deployment without mail credentials whose boundary blob holds
    [geofence]. *)
Definition local_world (geofence : value) : world := {|
  environ := {[ "STORAGE_CONNECTION_STRING" := "UseDevelopmentStorage=true" ]};
  from_connection_string := λ _, Ok ();
  get_container_client := ok_storage ();
  create_container := ok_storage ();
  download_blob := λ _ _ _, Ok geofence;
  list_blobs := ok_storage [];
  sendgrid_send := λ _ _, Raise SendError;
  utcnow := "2024-01-02T03:04:05"
|}.

(** The same deployment with mail credentials and a mail service that
    is down. *)
Definition mail_world (geofence : value) : world := {|
  environ := {[ "STORAGE_CONNECTION_STRING" := "UseDevelopmentStorage=true";
                "SendGridApiKey" := "SG.key";
                "AlertRecipientEmail" := "ops@example.org" ]};
  from_connection_string := λ _, Ok ();
  get_container_client := ok_storage ();
  create_container := ok_storage ();
  download_blob := λ _ _ _, Ok geofence;
  list_blobs := ok_storage [];
  sendgrid_send := λ _ _, Raise SendError;
  utcnow := "2024-01-02T03:04:05"
|}.

(** A deployment whose sample container lists [names]. *)
Definition listing_world (names : list string) : world := {|
  environ := {[ "STORAGE_CONNECTION_STRING" := "UseDevelopmentStorage=true" ]};
  from_connection_string := λ _, Ok ();
  get_container_client := ok_storage ();
  create_container := ok_storage ();
  download_blob := λ _ _ _, Raise StorageError;
  list_blobs := ok_storage names;
  sendgrid_send := λ _ _, Raise SendError;
  utcnow := "2024-01-02T03:04:05"
|}.

(** A payload with top-level coordinates. *)
Definition event (lat lon : Q) : gmap string value :=
  list_to_map [("deviceId", VStr "tracker-7"); ("lat", VNum lat); ("lon", VNum lon)].

(** The box as the reference geometry holds it, and two positions at
    latitude 36.5275: 11.1 m inside the east edge, and on it. *)
Definition box : list (Q * Q) :=
  [(binary64 5.869, binary64 36.527); (binary64 5.870, binary64 36.527);
   (binary64 5.870, binary64 36.528); (binary64 5.869, binary64 36.528);
   (binary64 5.869, binary64 36.527)].

Definition near_edge : Q * Q := (binary64 5.8699, binary64 36.5275).

(** The decision value at [near_edge], as printed by Python. *)
Definition near_edge_decision : Q := - binary64 11.099999999974129.

(** A distance whose product by 111000 is just above 50. *)
Definition threshold_distance : Q := 0x1d854df401d855 # 2 ^ 64.

(** A Polygon whose only ring is empty. *)
Definition empty_polygon_geometry : value :=
  dict [("type", VStr "Polygon"); ("coordinates", VList [VList []])].





Definition stored_names : list string :=
  ["a/2024/01/02/..."; "a/2024/01/02/..."; "b/2024/02/10/..."].

End Sample.


(** ** The triggers and the test endpoint

    The two event hub handlers and [test_geofence] log messages and reach
    services the geofence functions do not (the clock as a structured
    time, the blob upload), so they run in a monad over a larger world and
    a larger trace, into which the computations above are embedded. *)

Module Hub.
Import Py Eff Geo App.

(** [datetime]: the fields [strftime] and [isoformat] print. *)
Record datetime : Type := Datetime {
  year : nat;
  month : nat;
  day : nat;
  hour : nat;
  minute : nat;
  second : nat;
  microsecond : nat
}.

Definition digit (n : nat) : ascii :=
  match n mod 10 with
  | 0 => "0" | 1 => "1" | 2 => "2" | 3 => "3" | 4 => "4"
  | 5 => "5" | 6 => "6" | 7 => "7" | 8 => "8" | _ => "9"
  end%char%nat.

(** The last [width] decimal digits of [n], zero-padded: [%m], [%d], [%H],
    [%M], [%S] at width 2 and [%Y] at width 4 (years 1000 to 9999). *)
Fixpoint pad (width n : nat) : string :=
  match width with
  | O => ""
  | S width' => pad width' (n / 10) ++ String (digit n) ""
  end.

(** [strftime('%Y/%m/%d/%H%M%S')], line 136. *)
Definition strftime_path (t : datetime) : string :=
  pad 4 (year t) ++ "/" ++ pad 2 (month t) ++ "/" ++ pad 2 (day t) ++ "/"
  ++ pad 2 (hour t) ++ pad 2 (minute t) ++ pad 2 (second t).

(** [strftime('%Y-%m-%d')], line 142. *)
Definition strftime_date (t : datetime) : string :=
  pad 4 (year t) ++ "-" ++ pad 2 (month t) ++ "-" ++ pad 2 (day t).

(** [isoformat()], line 140: the microseconds are printed unless zero. *)
Definition isoformat (t : datetime) : string :=
  strftime_date t ++ "T" ++ pad 2 (hour t) ++ ":" ++ pad 2 (minute t) ++ ":"
  ++ pad 2 (second t)
  ++ (if Nat.eqb (microsecond t) 0 then "" else "." ++ pad 6 (microsecond t)).

(** The world of the handlers: the world of the geofence functions, the
    successive readings of [datetime.utcnow()] within one run, the blob
    upload ([upload_blob(json.dumps(data, default=str), overwrite=True)]
    by connection string, container and blob name), and two builtins left
    open: [str] on numbers and containers, and [float] on strings, which
    gives a number, nan, or raises. *)
Record hub_world : Type := HubWorld {
  base : world;
  clock : nat → datetime;
  upload_blob : string → string → string → value → result ();
  str_other : value → string;
  float_of_string : string → result float64
}.

(** [func.EventHubEvent], as the handlers read it: the decoded body,
    [json.loads(azeventhub.get_body().decode('utf-8'))], or the exception
    that raises, and [getattr(azeventhub, 'iothub_metadata', {})]. *)
Record hub_event : Type := HubEvent {
  body : result value;
  iothub_metadata : value
}.

(** [func.HttpRequest], as [test_geofence] reads it. *)
Record http_request : Type := HttpRequest {
  params : gmap string string
}.

Inductive hub_message : Type :=
| MsgEventHubStarted
| MsgProcessingData (device_id : string)
| MsgStored (device_id : string)
| MsgEventFailed (e : exn)
| MsgGeofenceStarted
| MsgGeofenceFailed (e : exn).

(** What a handler leaves behind: the events of the embedded
    computations, its own log records, and the uploads. *)
Inductive record : Type :=
| Base (ev : event)
| HubLog (l : level) (m : hub_message)
| BlobUpload (conn container name : string) (data : value).

Definition SM (A : Type) : Type := hub_world → result A * list record.

#[export] Instance SM_ret : MRet SM := λ A a _, (Ok a, []).

#[export] Instance SM_bind : MBind SM := λ A B k m w,
  match m w with
  | (Ok a, t) => let '(r, t') := k a w in (r, (t ++ t')%list)
  | (Raise e, t) => (Raise e, t)
  end.

Definition hub_lift {A} (r : result A) : SM A := λ _, (r, []).

Definition hub_emit (rc : record) : SM () := λ _, (Ok (), [rc]).

Definition hub_ask : SM hub_world := λ w, (Ok w, []).

Definition hub_log (l : level) (m : hub_message) : SM () := hub_emit (HubLog l m).

Definition hub_try_except {A} (m : SM A) (h : exn → SM A) : SM A := λ w,
  match m w with
  | (Ok a, t) => (Ok a, t)
  | (Raise e, t) => let '(r, t') := h e w in (r, (t ++ t')%list)
  end.

(** A computation of the geofence functions, run in the handler's world. *)
Definition run {A} (m : M A) : SM A := λ w,
  let '(r, t) := m (base w) in (r, Base <$> t).

(** The [n]-th reading of [datetime.utcnow()] of the run. *)
Definition utcnow_at (n : nat) : SM datetime := w ← hub_ask; mret (clock w n).

Definition hub_outcome {A} (r : result A * list record) : result A := r.1.
Definition hub_trace {A} (r : result A * list record) : list record := r.2.

(** Observations on a handler's trace. *)
Definition base_events (t : list record) : list event :=
  omap (λ rc, match rc with Base ev => Some ev | _ => None end) t.

Definition uploads (t : list record) : list (string * string * string * value) :=
  omap (λ rc, match rc with
              | BlobUpload conn container name data => Some (conn, container, name, data)
              | _ => None
              end) t.

(** What an f-string prints for a device id. *)
Definition format (w : hub_world) (v : value) : string :=
  match v with
  | VStr s => s
  | VNone => "None"
  | VBool true => "True"
  | VBool false => "False"
  | _ => str_other w v
  end.

(** Lines 128-130 and 195-197: the transport's device id, else the
    payload's [deviceId]. *)
Definition device_id_of (ev : hub_event) (event_body : value) : result value :=
  rbind (get (iothub_metadata ev) "connection-device-id" VNone) (λ a,
  if truthy a then Ok a else get event_body "deviceId" (VStr "unknown-device")).

(** Line 136. *)
Definition blob_name (device : string) (t : datetime) : string :=
  device ++ "/" ++ strftime_path t ++ ".json".

Section handlers.
Context {G : Shapely}.

(** [eventhub_trigger(azeventhub)], lines 122-153. *)
Definition eventhub_trigger (ev : hub_event) : SM () :=
  hub_try_except
    (hub_log INFO MsgEventHubStarted;;
     event_body ← hub_lift (body ev);
     device_id ← hub_lift (device_id_of ev event_body);
     w ← hub_ask;
     hub_log INFO (MsgProcessingData (format w device_id));;
     '(conn, container) ← run (get_or_create_container "gps-data");
     t0 ← utcnow_at 0;
     let name := blob_name (format w device_id) t0 in
     enqueued ← hub_lift (get (iothub_metadata ev) "enqueuedtime" VNone);
     timestamp ← (if truthy enqueued then mret enqueued
                  else t1 ← utcnow_at 1; mret (VStr (isoformat t1)));
     gps ← hub_lift (get event_body "gps" event_body);
     t2 ← utcnow_at (if truthy enqueued then 1 else 2);
     let data_to_store :=
       VDict (list_to_map [("device_id", device_id); ("timestamp", timestamp);
                           ("gps", gps); ("date", VStr (strftime_date t2))]) in
     hub_emit (BlobUpload conn container name data_to_store);;
     hub_lift (upload_blob w conn container name data_to_store);;
     hub_log INFO (MsgStored (format w device_id)))
    (λ e, hub_log ERROR (MsgEventFailed e)).

(** [geofence_trigger(azeventhub)], lines 189-203. *)
Definition geofence_trigger (ev : hub_event) : SM () :=
  hub_try_except
    (hub_log INFO MsgGeofenceStarted;;
     event_body ← hub_lift (body ev);
     device_id ← hub_lift (device_id_of ev event_body);
     w ← hub_ask;
     run (process_geofence_event event_body (format w device_id)))
    (λ e, hub_log ERROR (MsgGeofenceFailed e)).

(** [float(req.params.get(k, default))], lines 211-212. *)
Definition float_param (req : http_request) (k : string) (dflt : Q) : SM float64 :=
  match params req !! k with
  | Some s => w ← hub_ask; hub_lift (float_of_string w s)
  | None => mret (Finite dflt)
  end.

Inductive test_body : Type :=
| Completed (lat lon : float64)
| Failed (e : exn).

Record test_response : Type := TestResponse {
  test_body_of : test_body;
  test_status : Z
}.

(** Line 214. *)
Definition test_event (lat lon : float64) : value :=
  VDict {[ "gps" := VDict (<[ "lat" := float_value lat ]>
                             {[ "lon" := float_value lon ]}) ]}.

(** [test_geofence(req)], lines 207-222. *)
Definition test_geofence (req : http_request) : SM test_response :=
  hub_try_except
    (lat ← float_param req "lat" 36.5273%Q;
     lon ← float_param req "lon" 5.86945%Q;
     run (process_geofence_event (test_event lat lon) "test-device");;
     mret (TestResponse (Completed lat lon) 200))
    (λ e, mret (TestResponse (Failed e) 500)).

End handlers.

(** How often [sep] occurs in [s]. *)
Fixpoint count_sep (sep : ascii) (s : string) : nat :=
  match s with
  | EmptyString => 0
  | String c s' => (if bool_decide (c = sep) then 1 else 0) + count_sep sep s'
  end.

(** A distance the library returns, when it is a number, is not negative. *)
Definition distance_nonneg (G : Shapely) : Prop :=
  ∀ pt poly d, boundary_distance pt poly = Ok (Finite d) → (0 <= d)%Q.

End Hub.

(** ** Sample events *)

Module HubSample.
Import Py Eff Geo App Hub Sample.
Local Open Scope Q_scope.

Definition noon : datetime := Datetime 2024 1 2 12 30 5 0.

Definition hub (w : world) : hub_world := {|
  base := w;
  clock := λ _, noon;
  upload_blob := λ _ _ _ _, Ok ();
  str_other := λ _, "?";
  float_of_string := λ s,
    if bool_decide (s = "0") then Ok (Finite 0)
    else if bool_decide (s = "nan") then Ok NaN
    else Raise ValueError
|}.

(** An IoT Hub message from tracker-7 with a payload naming another
    device, and a plain event hub message without metadata. *)
Definition iot_message (payload : value) : hub_event := {|
  body := Ok payload;
  iothub_metadata := VDict {[ "connection-device-id" := VStr "tracker-7" ]}
|}.

Definition plain_message (payload : value) : hub_event := {|
  body := Ok payload;
  iothub_metadata := VDict ∅
|}.

(** A payload without coordinates, and one whose empty [gps] member hides
    the coordinates given at top level. *)
Definition bare_payload : gmap string value := {[ "deviceId" := VStr "tracker-9" ]}.

Definition shadowed_payload : gmap string value :=
  <[ "gps" := VDict ∅ ]> (event 36.5275 5.8699).

Definition zero_request : http_request := {| params := {[ "lat" := "0" ]} |}.

(** A request whose latitude [float] reads and whose longitude it rejects. *)
Definition east_request : http_request :=
  {| params := <[ "lat" := "0" ]> {[ "lon" := "east" ]} |}.

(** A deployment whose container cannot be listed nor read. *)
Definition unlisted_world : world := {|
  environ := {[ "STORAGE_CONNECTION_STRING" := "UseDevelopmentStorage=true" ]};
  from_connection_string := λ _, Ok ();
  get_container_client := ok_storage ();
  create_container := ok_storage ();
  download_blob := λ _ _ _, Raise StorageError;
  list_blobs := λ _ _, Raise StorageError;
  sendgrid_send := λ _ _, Raise SendError;
  utcnow := "2024-01-02T03:04:05"
|}.

End HubSample.

(** * Properties *)

(** ** Running computations *)

(** Unfolds the monad so that a run becomes a plain term. *)
Ltac run_M :=
  cbv [mbind Eff.M_bind mret Eff.M_ret Eff.lift Eff.emit Eff.raise Eff.ask
       Eff.try_except Eff.logger_info Eff.logger_warning Eff.logger_error
       Eff.environ_getitem Eff.environ_get Eff.getenv Eff.outcome Eff.trace].

Section evaluation.
Import Py Eff Geo App.
Context {G : Shapely}.

Lemma run_bind {A B} (m : M A) (k : A → M B) (w : world) :
  (m ≫= k) w =
  match m w with
  | (Ok a, t) => ((k a w).1, (t ++ (k a w).2)%list)
  | (Raise e, t) => (Raise e, t)
  end.
Proof.
  unfold mbind, M_bind. destruct (m w) as [[a|e] t]; [|reflexivity].
  destruct (k a w); reflexivity.
Qed.

Lemma run_try_except {A} (m : M A) (h : exn → M A) (w : world) :
  try_except m h w =
  match m w with
  | (Ok a, t) => (Ok a, t)
  | (Raise e, t) => ((h e w).1, (t ++ (h e w).2)%list)
  end.
Proof.
  unfold try_except. destruct (m w) as [[a|e] t]; [reflexivity|].
  destruct (h e w); reflexivity.
Qed.

(** The [try] body of [point_in_geofence], run. *)
Lemma point_in_geofence_try_run (lat lon g : value) (w : world) :
  point_in_geofence_try lat lon g w =
  match Point lon lat with
  | Raise e => (Raise e, [])
  | Ok pt =>
      (rbind (resolve_geometry g) (geometry_decision pt),
       [Log INFO (MsgChecking lat lon)])
  end.
Proof.
  unfold point_in_geofence_try. run_M.
  destruct (Point lon lat) as [pt|e]; [|reflexivity].
  destruct (resolve_geometry g) as [geometry|e]; [|reflexivity].
  cbn. destruct (geometry_decision pt geometry); reflexivity.
Qed.

(** [point_in_geofence], run: what the [try] body returns, or 999. *)
Lemma point_in_geofence_run (lat lon g : value) (w : world) :
  point_in_geofence lat lon g w =
  match point_in_geofence_try lat lon g w with
  | (Ok v, t) => (Ok v, t)
  | (Raise e, t) => (Ok (VNum 999), (t ++ [Log ERROR (MsgGeofenceError e)])%list)
  end.
Proof.
  unfold point_in_geofence. rewrite run_try_except.
  destruct (point_in_geofence_try lat lon g w) as [[v|e] t]; reflexivity.
Qed.

End evaluation.

(** ** The geometry evaluator *)

Section evaluator.
Import Py F64 Eff Geo App.
Context {G : Shapely}.

Lemma Qpow2_pos (e : Z) : (0 < Qpow2 e)%Q.
Proof.
  unfold Qpow2. destruct (0 <=? e)%Z eqn:He; [|reflexivity].
  apply Z.leb_le in He. unfold Qlt. cbn.
  pose proof (Z.pow_pos_nonneg 2 e). lia.
Qed.

Lemma round_half_even_nonneg (q : Q) : (0 <= q)%Q → (0 <= round_half_even q)%Z.
Proof.
  intros H. unfold round_half_even.
  assert (Hf : (0 <= Qfloor q)%Z) by (change 0%Z with (Qfloor 0); by apply Qfloor_resp_le).
  destruct (Qcompare _ _); [destruct (Z.even _)|..]; lia.
Qed.

(** Rounding to binary64 keeps the sign. *)
Lemma binary64_nonneg (q : Q) : (0 <= q)%Q → (0 <= binary64 q)%Q.
Proof.
  intros H. unfold binary64. destruct (Qeq_bool q 0); [apply Qle_refl|].
  cbv zeta. rewrite Qred_correct. apply Qmult_le_0_compat.
  - change 0%Q with (inject_Z 0). rewrite <- Zle_Qle. apply round_half_even_nonneg.
    apply Qmult_le_0_compat; [exact H|].
    apply Qinv_le_0_compat, Qlt_le_weak, Qpow2_pos.
  - apply Qlt_le_weak, Qpow2_pos.
Qed.


Lemma gt50_true (d : Q) : gt50 (Finite d) = true ↔ (50 < d)%Q.
Proof.
  unfold gt50, fgt. rewrite negb_true_iff, <- not_true_iff_false, Qle_bool_iff.
  split; [apply Qnot_le_lt | apply Qlt_not_le].
Qed.

Lemma gt50_false (d : Q) : gt50 (Finite d) = false ↔ (d <= 50)%Q.
Proof. unfold gt50, fgt. rewrite negb_false_iff. apply Qle_bool_iff. Qed.

Lemma metres_Finite (q : Q) : metres (Finite q) = Finite (binary64 (q * 111000)).
Proof. reflexivity. Qed.

Lemma metres_nonneg (q : Q) : (0 <= q)%Q → (0 <= binary64 (q * 111000))%Q.
Proof. intros H. apply binary64_nonneg, Qmult_le_0_compat; [exact H | discriminate]. Qed.

(** The decision for a polygon, given what the library answers. *)
Lemma polygon_decision_eq (pt : point) (ring : value) (poly : polygon)
    (inside : bool) (d0 : float64) :
  Polygon ring = Ok poly →
  contains poly pt = Ok inside →
  boundary_distance pt poly = Ok d0 →
  polygon_decision pt ring =
  Ok (if inside
      then (if gt50 (metres d0) then VNum (-999) else float_value (fneg (metres d0)))
      else (if gt50 (metres d0) then VNum 999 else float_value (metres d0))).
Proof.
  intros HP Hc Hd. unfold polygon_decision, rbind. rewrite HP, Hc.
  destruct inside; rewrite Hd; [reflexivity|].
  destruct (gt50 (metres d0)); reflexivity.
Qed.

(** A run whose [try] body returns leaves its value unchanged. *)
Lemma point_in_geofence_returns (lat lon g geometry v : value) (pt : point) (w : world) :
  Point lon lat = Ok pt →
  resolve_geometry g = Ok geometry →
  geometry_decision pt geometry = Ok v →
  point_in_geofence lat lon g w = (Ok v, [Log INFO (MsgChecking lat lon)]).
Proof.
  intros HP Hr Hd. rewrite point_in_geofence_run, point_in_geofence_try_run.
  rewrite HP, Hr. cbn. rewrite Hd. reflexivity.
Qed.

(** Lines 69-74 seen from the caller: the four-way decision. *)
Lemma point_in_geofence_polygon_eq
    (lat lon geofence_data geometry coordinates ring : value)
    (pt : point) (poly : polygon) (inside : bool) (d0 : float64) (w : world) :
  Point lon lat = Ok pt →
  resolve_geometry geofence_data = Ok geometry →
  getitem geometry "type" = Ok (VStr "Polygon") →
  getitem geometry "coordinates" = Ok coordinates →
  getitem0 coordinates = Ok ring →
  Polygon ring = Ok poly →
  contains poly pt = Ok inside →
  boundary_distance pt poly = Ok d0 →
  outcome (point_in_geofence lat lon geofence_data w) =
  Ok (if inside
      then (if gt50 (metres d0) then VNum (-999) else float_value (fneg (metres d0)))
      else (if gt50 (metres d0) then VNum 999 else float_value (metres d0))).
Proof.
  intros HP Hr Hty Hco Hring Hpoly Hin Hd.
  erewrite point_in_geofence_returns; [reflexivity | eassumption..|].
  unfold geometry_decision. rewrite Hty. cbn [rbind eq_str].
  rewrite bool_decide_eq_true_2 by reflexivity. rewrite Hco. cbn [rbind].
  rewrite Hring. cbn [rbind]. eapply polygon_decision_eq; eassumption.
Qed.

(** C1, as amended: for a boundary that resolves to a Polygon geometry,
    with [d] the binary64 product by 111000 of the distance the library
    returns from the point to the polygon's ring: the result is -999 when
    the polygon contains the point and d > 50, -d when it contains the
    point and d <= 50, +999 when it does not contain the point and
    d > 50, and d itself otherwise; d is non-negative when the distance
    is a non-negative number. When the distance is nan, as for an empty
    ring, the result is nan. *)
Theorem point_in_geofence_polygon
    (lat lon geofence_data geometry coordinates ring : value)
    (pt : point) (poly : polygon) (inside : bool) (d0 : float64) (w : world) :
  Point lon lat = Ok pt →
  resolve_geometry geofence_data = Ok geometry →
  getitem geometry "type" = Ok (VStr "Polygon") →
  getitem geometry "coordinates" = Ok coordinates →
  getitem0 coordinates = Ok ring →
  Polygon ring = Ok poly →
  contains poly pt = Ok inside →
  boundary_distance pt poly = Ok d0 →
  let result := outcome (point_in_geofence lat lon geofence_data w) in
  (∀ q0, d0 = Finite q0 →
     let d := binary64 (q0 * 111000) in
     (inside = true → (50 < d)%Q → result = Ok (VNum (-999))) ∧
     (inside = true → (d <= 50)%Q → result = Ok (VNum (- d))) ∧
     (inside = false → (50 < d)%Q → result = Ok (VNum 999)) ∧
     (inside = false → (d <= 50)%Q → result = Ok (VNum d)) ∧
     ((0 <= q0)%Q → (0 <= d)%Q)) ∧
  (d0 = NaN → result = Ok VNaN).
Proof.
  intros HP Hr Hty Hco Hring Hpoly Hin Hd result. subst result.
  rewrite (point_in_geofence_polygon_eq lat lon geofence_data geometry coordinates
             ring pt poly inside d0 w HP Hr Hty Hco Hring Hpoly Hin Hd).
  split.
  - intros q0 -> d. rewrite metres_Finite. fold d.
    split; [|split; [|split; [|split]]].
    + intros -> Hcmp. apply gt50_true in Hcmp. by rewrite Hcmp.
    + intros -> Hcmp. apply gt50_false in Hcmp. by rewrite Hcmp.
    + intros -> Hcmp. apply gt50_true in Hcmp. by rewrite Hcmp.
    + intros -> Hcmp. apply gt50_false in Hcmp. by rewrite Hcmp.
    + apply metres_nonneg.
  - intros ->. by destruct inside.
Qed.

Lemma polygon_decision_number (pt : point) (ring v : value) :
  polygon_decision pt ring = Ok v → v = VNaN ∨ ∃ d, v = VNum d.
Proof.
  unfold polygon_decision, rbind.
  destruct (Polygon ring) as [poly|]; [|discriminate].
  destruct (contains poly pt) as [[]|]; [| |discriminate];
    destruct (boundary_distance pt poly) as [[q|]|]; try discriminate;
    try (destruct (gt50 _)); intros [= <-]; cbn; eauto.
Qed.

Lemma geometry_decision_value (pt : point) (geometry v : value) :
  geometry_decision pt geometry = Ok v → v = VNone ∨ v = VNaN ∨ ∃ d, v = VNum d.
Proof.
  unfold geometry_decision, rbind.
  destruct (getitem geometry "type") as [ty|]; [|discriminate].
  destruct (eq_str ty "Polygon"); [|intros [= <-]; by left].
  destruct (getitem geometry "coordinates") as [c|]; [|discriminate].
  destruct (getitem0 c) as [ring|]; [|discriminate].
  intros H. right. by eapply polygon_decision_number.
Qed.

(** Whatever the inputs, the call returns, and it returns [None], nan or
    a number; it reaches neither the blob store nor the alert path. *)
Lemma point_in_geofence_total (lat lon g : value) (w : world) :
  ∃ v t, point_in_geofence lat lon g w = (Ok v, t) ∧
         (v = VNone ∨ v = VNaN ∨ ∃ d, v = VNum d) ∧
         alert_calls t = [] ∧ downloads t = [] ∧ send_attempts t = [].
Proof.
  rewrite point_in_geofence_run, point_in_geofence_try_run.
  assert (Hfallback : VNum 999 = VNone ∨ VNum 999 = VNaN ∨ ∃ d, VNum 999 = VNum d)
    by (right; right; by eexists).
  destruct (Point lon lat) as [pt|e].
  - destruct (resolve_geometry g) as [geometry|e]; cbn [rbind].
    + destruct (geometry_decision pt geometry) as [v|e] eqn:Hv.
      * apply geometry_decision_value in Hv. by eexists _, _.
      * by eexists _, _.
    + by eexists _, _.
  - by eexists _, _.
Qed.

(** C6: when geometry construction or parsing raises inside the [try]
    block, the function returns the fallback 999, records the error in
    the log and raises nothing. *)
Theorem point_in_geofence_fallback (lat lon geofence_data : value) (e : exn) (w : world) :
  outcome (point_in_geofence_try lat lon geofence_data w) = Raise e →
  outcome (point_in_geofence lat lon geofence_data w) = Ok (VNum 999) ∧
  last (trace (point_in_geofence lat lon geofence_data w))
    = Some (Log ERROR (MsgGeofenceError e)).
Proof.
  rewrite point_in_geofence_run. unfold outcome, trace.
  destruct (point_in_geofence_try lat lon geofence_data w) as [[v|e'] t]; cbn.
  - discriminate.
  - intros [= ->]. split; [reflexivity | apply last_snoc].
Qed.

(** Lines 64-65: a feature collection resolves to its first feature's
    geometry. *)
Lemma resolve_feature_collection (d : gmap string value) (feature : value)
    (rest : list value) :
  d !! "type" = Some (VStr "FeatureCollection") →
  d !! "features" = Some (VList (feature :: rest)) →
  resolve_geometry (VDict d) = getitem feature "geometry".
Proof. intros Hty Hfs. unfold resolve_geometry. cbn. rewrite Hty. cbn. rewrite Hfs. reflexivity. Qed.

(** Lines 66-67: an object that is not a feature collection is its own
    geometry; without a [type] the lookup raises. *)
Lemma resolve_bare_geometry (geometry : value) :
  getitem geometry "type" ≠ Ok (VStr "FeatureCollection") →
  rbind (resolve_geometry geometry) (λ g, getitem g "type") = getitem geometry "type" ∧
  (∀ ty, getitem geometry "type" = Ok ty → resolve_geometry geometry = Ok geometry).
Proof.
  intros Hne. unfold resolve_geometry.
  destruct (getitem geometry "type") as [ty|e] eqn:Hty; [|split; [reflexivity | discriminate]].
  cbn [rbind]. assert (Hfc : eq_str ty "FeatureCollection" = false).
  { destruct ty; try reflexivity. cbn. apply bool_decide_eq_false_2.
    intros ->. by destruct Hne. }
  rewrite Hfc. cbn [rbind]. split; [exact Hty | reflexivity].
Qed.

(** C7: for a FeatureCollection with at least one feature, evaluation
    uses the geometry of [features[0]] and nothing else of the
    collection: two collections whose first features carry the same
    geometry give the same run, whatever their other features; the run is
    the run on that geometry taken alone (when it is not a collection
    itself); and the value returned is the decision of lines 69-74 for
    that geometry, or 999 when that raises. *)
Theorem feature_collection_first_feature (lat lon : value)
    (d d' : gmap string value) (feature feature' : value)
    (rest rest' : list value) (w w' : world) :
  d !! "type" = Some (VStr "FeatureCollection") →
  d' !! "type" = Some (VStr "FeatureCollection") →
  d !! "features" = Some (VList (feature :: rest)) →
  d' !! "features" = Some (VList (feature' :: rest')) →
  getitem feature "geometry" = getitem feature' "geometry" →
  point_in_geofence lat lon (VDict d) w = point_in_geofence lat lon (VDict d') w' ∧
  (∀ geometry,
     getitem feature "geometry" = Ok geometry →
     getitem geometry "type" ≠ Ok (VStr "FeatureCollection") →
     point_in_geofence lat lon (VDict d) w = point_in_geofence lat lon geometry w) ∧
  (∀ pt geometry,
     Point lon lat = Ok pt →
     getitem feature "geometry" = Ok geometry →
     outcome (point_in_geofence lat lon (VDict d) w)
     = match geometry_decision pt geometry with
       | Ok v => Ok v
       | Raise _ => Ok (VNum 999)
       end).
Proof.
  intros Hty Hty' Hfs Hfs' Hgeo. split; [|split].
  - rewrite !point_in_geofence_run, !point_in_geofence_try_run.
    rewrite (resolve_feature_collection d feature rest Hty Hfs).
    rewrite (resolve_feature_collection d' feature' rest' Hty' Hfs').
    rewrite Hgeo. reflexivity.
  - intros geometry Hg Hne.
    rewrite !point_in_geofence_run, !point_in_geofence_try_run.
    rewrite (resolve_feature_collection d feature rest Hty Hfs), Hg.
    destruct (Point lon lat) as [pt|]; [|reflexivity].
    destruct (resolve_bare_geometry geometry Hne) as [Hraise Hself].
    destruct (getitem geometry "type") as [ty|e] eqn:Hgty.
    + by rewrite (Hself ty eq_refl).
    + cbn [rbind]. unfold geometry_decision at 1. rewrite Hgty. cbn [rbind].
      revert Hraise. destruct (resolve_geometry geometry) as [g|e']; cbn [rbind].
      * intros Hg'. unfold geometry_decision. by rewrite Hg'.
      * by intros [= ->].
  - intros pt geometry HP Hg.
    rewrite point_in_geofence_run, point_in_geofence_try_run, HP.
    rewrite (resolve_feature_collection d feature rest Hty Hfs), Hg. cbn [rbind].
    by destruct (geometry_decision pt geometry).
Qed.

(** Lines 69-74 have no [else]: for a geometry of another type the [try]
    body falls through and the call returns [None]. *)
Lemma point_in_geofence_other_type (lat lon g geometry ty : value) (pt : point) (w : world) :
  Point lon lat = Ok pt →
  resolve_geometry g = Ok geometry →
  getitem geometry "type" = Ok ty →
  eq_str ty "Polygon" = false →
  outcome (point_in_geofence lat lon g w) = Ok VNone.
Proof.
  intros HP Hr Hty Hne. erewrite point_in_geofence_returns; [reflexivity | eassumption..|].
  unfold geometry_decision. rewrite Hty. cbn [rbind]. rewrite Hne. reflexivity.
Qed.

End evaluator.

(** ** The alert dispatcher *)

Section dispatcher.
Import Py Eff Geo App.
Context {G : Shapely}.

Lemma send_geofence_alert_run (lat lon : value) (distance : Q) (device_id : string) (w : world) :
  send_geofence_alert lat lon distance device_id w =
  (Ok (),
   Called_send_geofence_alert lat lon distance device_id ::
   Log INFO MsgAttempting ::
   match environ w !! "SendGridApiKey" with
   | None => [Log WARNING MsgKeyNotFound; Log INFO (MsgMockEmail device_id lat lon)]
   | Some api_key =>
       let message := alert_mail lat lon distance device_id w in
       [MailSend api_key message;
        match sendgrid_send w api_key message with
        | Ok status => Log INFO (MsgSent status)
        | Raise e => Log ERROR (MsgSendFailed e)
        end]
   end).
Proof.
  unfold send_geofence_alert, alert_mail. run_M.
  destruct (environ w !! "SendGridApiKey") as [api_key|] eqn:Hkey; [|reflexivity].
  cbv beta iota zeta. rewrite ?Hkey.
  destruct (sendgrid_send w api_key _); reflexivity.
Qed.

(** C9: [send_geofence_alert] never raises. Without [SendGridApiKey] in
    the environment it attempts no send and returns after logging the mock
    notification; with it, a send attempt that fails is caught and logged. *)
Theorem send_geofence_alert_never_raises (lat lon : value) (distance : Q)
    (device_id : string) (w : world) :
  let run := send_geofence_alert lat lon distance device_id w in
  outcome run = Ok () ∧
  (environ w !! "SendGridApiKey" = None →
   send_attempts (trace run) = [] ∧
   last (trace run) = Some (Log INFO (MsgMockEmail device_id lat lon))) ∧
  (∀ api_key e,
     environ w !! "SendGridApiKey" = Some api_key →
     sendgrid_send w api_key (alert_mail lat lon distance device_id w) = Raise e →
     send_attempts (trace run) = [(api_key, alert_mail lat lon distance device_id w)] ∧
     last (trace run) = Some (Log ERROR (MsgSendFailed e))).
Proof.
  intros run. subst run. rewrite send_geofence_alert_run. unfold outcome, trace. cbn [fst snd].
  split; [reflexivity|]. split.
  - intros ->. split; reflexivity.
  - intros api_key e -> Hsend. cbn zeta. rewrite Hsend. split; reflexivity.
Qed.

Lemma send_geofence_alert_calls (lat lon : value) (distance : Q) (device_id : string) (w : world) :
  alert_calls (trace (send_geofence_alert lat lon distance device_id w))
  = [(lat, lon, distance, device_id)].
Proof.
  rewrite send_geofence_alert_run. unfold trace. cbn.
  destruct (environ w !! "SendGridApiKey"); [|reflexivity].
  cbn. destruct (sendgrid_send _ _ _); reflexivity.
Qed.

End dispatcher.

(** ** The geofence pipeline *)

Section pipeline.
Import Py F64 Eff Geo App.
Context {G : Shapely}.

Lemma alert_calls_log (l : level) (m : message) (t : list event) :
  alert_calls (Log l m :: t) = alert_calls t.
Proof. reflexivity. Qed.

Lemma alert_calls_app (t t' : list event) :
  alert_calls (t ++ t') = (alert_calls t ++ alert_calls t')%list.
Proof. apply omap_app. Qed.

Lemma downloads_log (l : level) (m : message) (t : list event) :
  downloads (Log l m :: t) = downloads t.
Proof. reflexivity. Qed.

Lemma downloads_cons (conn container blob : string) (t : list event) :
  downloads (BlobDownload conn container blob :: t) = (conn, container, blob) :: downloads t.
Proof. reflexivity. Qed.

Lemma downloads_app (t t' : list event) :
  downloads (t ++ t') = (downloads t ++ downloads t')%list.
Proof. apply omap_app. Qed.

Lemma send_geofence_alert_no_download (lat lon : value) (distance : Q)
    (device_id : string) (w : world) :
  downloads (trace (send_geofence_alert lat lon distance device_id w)) = [].
Proof.
  rewrite send_geofence_alert_run. unfold trace. cbn [snd].
  destruct (environ w !! "SendGridApiKey"); [|reflexivity].
  cbn zeta. destruct (sendgrid_send _ _ _); reflexivity.
Qed.

Lemma load_geofence_run (w : world) :
  load_geofence w =
  match environ w !! "STORAGE_CONNECTION_STRING" with
  | None => (Raise KeyError, [])
  | Some conn =>
      match from_connection_string w conn with
      | Raise e => (Raise e, [])
      | Ok _ =>
          let container := default "geofences" (environ w !! "GEOFENCE_CONTAINER") in
          let blob := default "geofence/geofence.json" (environ w !! "GEOFENCE_BLOB_NAME") in
          (download_blob w conn container blob,
           [Log INFO MsgDownloading; BlobDownload conn container blob])
      end
  end.
Proof.
  unfold load_geofence. run_M.
  destruct (environ w !! "STORAGE_CONNECTION_STRING") as [conn|]; [|reflexivity].
  destruct (from_connection_string w conn); [|reflexivity].
  cbv beta iota zeta. destruct (download_blob _ _ _ _); reflexivity.
Qed.

Lemma load_geofence_no_alert (w : world) : alert_calls (trace (load_geofence w)) = [].
Proof.
  rewrite load_geofence_run. unfold trace.
  destruct (environ w !! "STORAGE_CONNECTION_STRING") as [conn|]; [|reflexivity].
  destruct (from_connection_string w conn); reflexivity.
Qed.

Lemma process_geofence_event_run (event_body : value) (device_id : string) (w : world) :
  process_geofence_event event_body device_id w =
  let start := Log INFO (MsgProcessing device_id event_body) in
  match extract_coordinates event_body with
  | Raise e => (Raise e, [start])
  | Ok (lat, lon) =>
      if is_none lat || is_none lon
      then (Ok (), [start; Log ERROR MsgNoCoordinates])
      else
        match load_geofence w with
        | (Raise e, t) => (Raise e, start :: Log INFO (MsgCoordinates lat lon) :: t)
        | (Ok g, t) =>
            let pre := (start :: Log INFO (MsgCoordinates lat lon) :: t
                        ++ trace (point_in_geofence lat lon g w))%list in
            match outcome (point_in_geofence lat lon g w) with
            | Raise e => (Raise e, pre)
            | Ok distance =>
                match number distance with
                | Raise e => (Raise e, pre)
                | Ok (Finite d) =>
                    if Qle_bool d 0
                    then (Ok (),
                          (pre ++ Log INFO (MsgInside (Qabs d))
                               :: trace (send_geofence_alert lat lon d device_id w))%list)
                    else (Ok (), (pre ++ [Log INFO (MsgOutside d)])%list)
                | Ok NaN => (Ok (), (pre ++ [Log INFO MsgOutsideNaN])%list)
                end
            end
        end
  end.
Proof.
  unfold process_geofence_event.
  cbv [mbind M_bind logger_info logger_error emit lift outcome trace].
  destruct (extract_coordinates event_body) as [[lat lon]|e]; [|reflexivity].
  destruct (is_none lat || is_none lon); [reflexivity|].
  destruct (load_geofence w) as [[g|e] t]; [|reflexivity].
  destruct (point_in_geofence lat lon g w) as [[distance|e] t']; [|reflexivity].
  cbn [fst snd]. destruct (number distance) as [[d|]|e]; [| |by rewrite app_nil_r].
  - destruct (Qle_bool d 0).
    + rewrite send_geofence_alert_run. cbn [fst snd app]. by rewrite <- !app_assoc.
    + cbn [app]. by rewrite <- !app_assoc.
  - cbn [app]. by rewrite <- !app_assoc.
Qed.

(** Lines 106-112: which alert calls a run that reaches the evaluation
    makes, from the decision value. *)
Lemma process_alert_calls (event_body : value) (device_id : string)
    (w : world) (lat lon geofence_data : value) :
  extract_coordinates event_body = Ok (lat, lon) →
  is_none lat = false →
  is_none lon = false →
  outcome (load_geofence w) = Ok geofence_data →
  alert_calls (trace (process_geofence_event event_body device_id w)) =
  match outcome (point_in_geofence lat lon geofence_data w) with
  | Ok (VNum d) => if Qle_bool d 0 then [(lat, lon, d, device_id)] else []
  | _ => []
  end.
Proof.
  intros Hex Hlat Hlon Hload.
  rewrite process_geofence_event_run, Hex, Hlat, Hlon.
  cbn [orb]. pose proof (load_geofence_no_alert w) as Hno. revert Hload Hno.
  unfold outcome, trace. destruct (load_geofence w) as [[g|e] t]; [|discriminate].
  cbn [fst snd]. intros [= ->] Hno.
  destruct (point_in_geofence_total lat lon geofence_data w)
    as (v & t' & -> & Hv & Ht' & _).
  cbn [fst snd].
  destruct Hv as [->|[->|[d ->]]]; cbn [number].
  - cbn [snd]. rewrite !alert_calls_log, alert_calls_app, Hno, Ht'. reflexivity.
  - cbn [snd]. repeat (rewrite alert_calls_app || rewrite alert_calls_log).
    by rewrite Hno, Ht'.
  - destruct (Qle_bool d 0); cbn [snd];
      repeat (rewrite alert_calls_app || rewrite alert_calls_log);
      rewrite Hno, Ht'.
    + apply (send_geofence_alert_calls lat lon d device_id w).
    + reflexivity.
Qed.

(** C2: once the coordinates are extracted and the boundary is loaded,
    [send_geofence_alert] is entered exactly once, with the original
    latitude, longitude and device id, if and only if the decision value
    is at most 0; otherwise, and in particular when it is positive, it is
    not entered at all. *)
Theorem alert_iff_decision_le0 (event_body : value) (device_id : string)
    (w : world) (lat lon geofence_data : value) :
  extract_coordinates event_body = Ok (lat, lon) →
  is_none lat = false →
  is_none lon = false →
  outcome (load_geofence w) = Ok geofence_data →
  let decision := outcome (point_in_geofence lat lon geofence_data w) in
  let calls := alert_calls (trace (process_geofence_event event_body device_id w)) in
  (decision_le0 decision ↔ ∃ d, calls = [(lat, lon, d, device_id)]) ∧
  (∀ d, decision = Ok (VNum d) → (d <= 0)%Q → calls = [(lat, lon, d, device_id)]) ∧
  (decision_gt0 decision → calls = []) ∧
  (¬ decision_le0 decision → calls = []).
Proof.
  intros Hex Hlat Hlon Hload decision calls.
  assert (Hcalls : calls =
    match decision with
    | Ok (VNum d) => if Qle_bool d 0 then [(lat, lon, d, device_id)] else []
    | _ => []
    end) by (by apply process_alert_calls).
  rewrite Hcalls. clear Hcalls calls. unfold decision_le0, decision_gt0.
  destruct decision as [[| |d| | | |]|e];
    try (split; [split; [intros (? & ? & _) | intros (? & ?)]; discriminate|];
         split; [intros ? ?; discriminate|]; split; intros _; reflexivity).
  destruct (Qle_bool d 0) eqn:Hle.
  - apply Qle_bool_iff in Hle. split; [split; intros _; eauto|].
    split; [by intros d' [= <-] _|]. split.
    + intros (d' & [= <-] & Hgt). by apply Qlt_not_le in Hgt.
    + intros Hn. destruct Hn. eauto.
  - assert (Hn : ¬ (d <= 0)%Q) by (rewrite <- Qle_bool_iff, Hle; discriminate).
    split; [split; [intros (d' & [= <-] & ?); contradiction | intros (? & ?); discriminate]|].
    split; [intros d' [= <-] ?; contradiction|]. split; intros _; reflexivity.
Qed.

(** Lines 106-108 after a fall-through of [point_in_geofence]: for a
    geometry that is not a Polygon, [None <= 0] raises. *)
Lemma process_geofence_event_other_type (event_body : value) (device_id : string)
    (w : world) (lat lon geofence_data geometry ty : value) (pt : point) :
  extract_coordinates event_body = Ok (lat, lon) →
  is_none lat = false →
  is_none lon = false →
  outcome (load_geofence w) = Ok geofence_data →
  Point lon lat = Ok pt →
  resolve_geometry geofence_data = Ok geometry →
  getitem geometry "type" = Ok ty →
  eq_str ty "Polygon" = false →
  outcome (process_geofence_event event_body device_id w) = Raise TypeError.
Proof.
  intros Hex Hlat Hlon Hload HP Hr Hty Hne.
  pose proof (point_in_geofence_other_type lat lon geofence_data geometry ty pt w
                HP Hr Hty Hne) as Hnone.
  rewrite process_geofence_event_run, Hex, Hlat, Hlon. cbn [orb].
  revert Hload. unfold outcome at 1.
  destruct (load_geofence w) as [[g|e] t]; [|discriminate].
  cbn [fst]. intros [= ->]. rewrite Hnone. reflexivity.
Qed.

(** Lines 85-86: a coordinate that is present but falsy, such as 0, is
    replaced by the lookup of the second key. *)
Lemma get_or_falsy (d : gmap string value) (k1 k2 : string) (v : value) :
  d !! k1 = Some v →
  truthy v = false →
  get_or (VDict d) k1 k2 = Ok (default VNone (d !! k2)).
Proof. intros Hk Hv. unfold get_or, get, rbind. rewrite Hk. cbn. by rewrite Hv. Qed.

Lemma get_or_truthy (d : gmap string value) (k1 k2 : string) (v : value) :
  d !! k1 = Some v →
  truthy v = true →
  get_or (VDict d) k1 k2 = Ok v.
Proof. intros Hk Hv. unfold get_or, get, rbind. rewrite Hk. cbn. by rewrite Hv. Qed.

(** A top-level latitude of 0 with no [latitude] key: the event is dropped
    at the coordinate check, whatever the longitude. *)
Lemma zero_latitude_dropped (d : gmap string value) (q : Q) (device_id : string)
    (w : world) :
  d !! "gps" = None →
  d !! "lat" = Some (VNum q) →
  (q == 0)%Q →
  d !! "latitude" = None →
  process_geofence_event (VDict d) device_id w
  = (Ok (), [Log INFO (MsgProcessing device_id (VDict d)); Log ERROR MsgNoCoordinates]).
Proof.
  intros Hgps Hlat Hq Hlatitude. rewrite process_geofence_event_run.
  unfold extract_coordinates. cbn [get rbind]. rewrite Hgps. cbn [default].
  rewrite (get_or_falsy d "lat" "latitude" (VNum q) Hlat).
  - rewrite Hlatitude. cbn [default rbind].
    destruct (get_or (VDict d) "lon" "longitude") as [lon|] eqn:Hlon; [reflexivity|].
    unfold get_or in Hlon. cbn [get rbind] in Hlon.
    destruct (truthy _) in Hlon; discriminate.
  - cbn [truthy]. apply negb_false_iff, Qeq_bool_iff, Hq.
Qed.

(** Coordinates that are both truthy reach the boundary download. *)
Lemma truthy_coordinates_proceed (d : gmap string value) (lat lon : value)
    (device_id : string) (w : world) (conn : string) :
  d !! "gps" = None →
  d !! "lat" = Some lat → truthy lat = true →
  d !! "lon" = Some lon → truthy lon = true →
  environ w !! "STORAGE_CONNECTION_STRING" = Some conn →
  from_connection_string w conn = Ok () →
  length (downloads (trace (process_geofence_event (VDict d) device_id w))) = 1%nat.
Proof.
  intros Hgps Hlat Htlat Hlon Htlon Henv Hconn.
  assert (Hnn : ∀ v, truthy v = true → is_none v = false) by (by intros []).
  rewrite process_geofence_event_run.
  unfold extract_coordinates. cbn [get rbind]. rewrite Hgps. cbn [default].
  rewrite (get_or_truthy d "lat" "latitude" lat Hlat Htlat).
  rewrite (get_or_truthy d "lon" "longitude" lon Hlon Htlon). cbn [rbind].
  rewrite (Hnn lat Htlat), (Hnn lon Htlon). cbn [orb].
  rewrite load_geofence_run, Henv, Hconn. cbv zeta.
  destruct (download_blob w conn _ _) as [g|e]; [|reflexivity].
  destruct (point_in_geofence_total lat lon g w) as (v & t & -> & Hv & _ & Hdl & _).
  unfold outcome, trace. cbn [fst snd].
  destruct Hv as [->|[->|[dv ->]]]; cbn [number snd];
    [| |pose proof (send_geofence_alert_no_download lat lon dv device_id w) as Hsend;
        unfold trace in Hsend; destruct (Qle_bool dv 0); cbn [snd]];
    repeat (rewrite downloads_app || rewrite downloads_log || rewrite downloads_cons);
    rewrite ?Hdl, ?Hsend; reflexivity.
Qed.

(** Lines 84-90: with no coordinate key to find, the event is dropped
    after two log records. *)
Lemma extract_lacking (d g : gmap string value) :
  default (VDict d) (d !! "gps") = VDict g →
  lacks_coordinates g →
  extract_coordinates (VDict d) = Ok (VNone, VNone).
Proof.
  intros Hgps (Hlat & Hlatitude & Hlon & Hlongitude).
  unfold extract_coordinates, get_or. cbn [get rbind]. rewrite Hgps.
  cbn [get rbind]. rewrite Hlat, Hlatitude, Hlon, Hlongitude. reflexivity.
Qed.

(** A run that stops at or before the coordinate check touches neither
    the blob store nor the alert path. *)
Lemma process_geofence_event_stops (event_body : value) (device_id : string) (w : world) :
  (∀ lat lon, extract_coordinates event_body = Ok (lat, lon) →
              is_none lat || is_none lon = true) →
  let run := process_geofence_event event_body device_id w in
  downloads (trace run) = [] ∧ alert_calls (trace run) = [] ∧ send_attempts (trace run) = [].
Proof.
  intros Hstop run. subst run. rewrite process_geofence_event_run.
  destruct (extract_coordinates event_body) as [[lat lon]|e]; [|by repeat split].
  rewrite (Hstop lat lon eq_refl). by repeat split.
Qed.

(** C5: an event whose payload has neither lat/latitude nor lon/longitude,
    at top level and under gps, ends at the coordinate check: no blob
    download, no alert call and no send attempt; for a payload object
    whose gps member, if any, is an object, the run returns right after
    the error record. *)
Theorem missing_coordinates_dropped (event_body : value) (device_id : string)
    (w : world) :
  coordinates_absent event_body →
  let run := process_geofence_event event_body device_id w in
  downloads (trace run) = [] ∧
  alert_calls (trace run) = [] ∧
  send_attempts (trace run) = [] ∧
  (well_formed_payload event_body →
   outcome run = Ok () ∧
   trace run = [Log INFO (MsgProcessing device_id event_body); Log ERROR MsgNoCoordinates]).
Proof.
  intros Habs run.
  assert (Hex : ∀ d, event_body = VDict d →
                (∀ v, d !! "gps" = Some v → ∃ g, v = VDict g) →
                extract_coordinates event_body = Ok (VNone, VNone)).
  { intros d -> Hwf. destruct Habs as [Htop Hgps].
    destruct (d !! "gps") as [v|] eqn:Hv.
    - destruct (Hwf v eq_refl) as (g & ->).
      apply (extract_lacking d g); [by rewrite Hv | by apply Hgps].
    - apply (extract_lacking d d); [by rewrite Hv | exact Htop]. }
  assert (Hstop : ∀ lat lon, extract_coordinates event_body = Ok (lat, lon) →
                  is_none lat || is_none lon = true).
  { intros lat lon. destruct event_body as [| | | | | |d]; try discriminate.
    destruct (d !! "gps") as [[| | | | | |g]|] eqn:Hv;
      try (unfold extract_coordinates; cbn [get rbind]; rewrite Hv;
           cbn [default get rbind]; discriminate).
    - rewrite (Hex d eq_refl); [by intros [= <- <-]|].
      intros v. rewrite Hv. intros [= <-]. by eexists.
    - rewrite (Hex d eq_refl); [by intros [= <- <-]|].
      intros v. rewrite Hv. discriminate. }
  destruct (process_geofence_event_stops event_body device_id w Hstop) as (Hd & Ha & Hs).
  split; [exact Hd|]. split; [exact Ha|]. split; [exact Hs|].
  intros Hwf. destruct event_body as [| | | | | |d]; try contradiction.
  subst run. rewrite process_geofence_event_run, (Hex d eq_refl Hwf). by split.
Qed.


End pipeline.

(** ** The date listing *)

Section listing.
Import Py Eff Geo App.

Lemma elem_of_collect_dates (x : string) (names : list string) :
  x ∈ collect_dates names ↔ ∃ name, name ∈ names ∧ date_of name = Some x.
Proof.
  unfold collect_dates.
  assert (Hgen : ∀ acc : gset string,
    x ∈ foldl (λ dates name,
                 match date_of name with
                 | Some d => {[d]} ∪ dates
                 | None => dates
                 end) acc names
    ↔ x ∈ acc ∨ ∃ name, name ∈ names ∧ date_of name = Some x).
  { induction names as [|name names IH]; intros acc; cbn [foldl].
    - split; [by left|]. intros [H|(name & Hin & _)]; [exact H|].
      by apply elem_of_nil in Hin.
    - rewrite IH. split.
      + intros [Hacc|(name' & Hin & Hd)].
        * destruct (date_of name) as [d|] eqn:Hname; [|by left].
          apply elem_of_union in Hacc as [Hx|Hacc]; [|by left].
          apply elem_of_singleton in Hx as ->. right. exists name.
          split; [apply list_elem_of_here | exact Hname].
        * right. exists name'. split; [by apply list_elem_of_further | exact Hd].
      + intros [Hacc|(name' & Hin & Hd)].
        * left. destruct (date_of name); [|exact Hacc].
          apply elem_of_union. by right.
        * apply elem_of_cons in Hin as [->|Hin].
          -- left. rewrite Hd. apply elem_of_union. left. by apply elem_of_singleton.
          -- right. by exists name'. }
  rewrite Hgen. split; [|by right]. intros [H|H]; [|exact H].
  by apply not_elem_of_empty in H.
Qed.

Lemma sorted_Permutation (dates : gset string) : sorted dates ≡ₚ elements dates.
Proof. apply merge_sort_Permutation. Qed.

Lemma sorted_StronglySorted (dates : gset string) : StronglySorted String.le (sorted dates).
Proof. apply StronglySorted_merge_sort; apply _. Qed.

Lemma sorted_NoDup (dates : gset string) : NoDup (sorted dates).
Proof. rewrite sorted_Permutation. apply NoDup_elements. Qed.

Lemma elem_of_sorted (x : string) (dates : gset string) : x ∈ sorted dates ↔ x ∈ dates.
Proof. rewrite sorted_Permutation. apply elem_of_elements. Qed.

Lemma get_or_create_container_run (name : string) (w : world) :
  get_or_create_container name w =
  match environ w !! "STORAGE_CONNECTION_STRING" with
  | None => (Raise KeyError, [])
  | Some conn =>
      match from_connection_string w conn with
      | Raise e => (Raise e, [])
      | Ok _ =>
          match get_container_client w conn name with
          | Ok _ => (Ok (conn, name), [])
          | Raise _ =>
              match create_container w conn name with
              | Ok _ => (Ok (conn, name), [])
              | Raise e => (Raise e, [])
              end
          end
      end
  end.
Proof.
  unfold get_or_create_container. run_M.
  destruct (environ w !! "STORAGE_CONNECTION_STRING") as [conn|]; [|reflexivity].
  destruct (from_connection_string w conn); [|reflexivity].
  cbv beta iota zeta. destruct (get_container_client w conn name); [reflexivity|].
  destruct (create_container w conn name); reflexivity.
Qed.

Lemma list_gps_dates_run (w : world) :
  list_gps_dates w =
  match get_or_create_container "gps-data" w with
  | (Raise e, t) => (Ok (HttpResponse (ErrorBody e) 500 None), t)
  | (Ok (conn, container), t) =>
      match list_blobs w conn container with
      | Raise e =>
          (Ok (HttpResponse (ErrorBody e) 500 None),
           (t ++ [BlobList conn container])%list)
      | Ok names =>
          (Ok (HttpResponse
                 (JsonBody (VList (VStr <$> sorted (collect_dates names))))
                 200 (Some "application/json")),
           (t ++ [BlobList conn container])%list)
      end
  end.
Proof.
  unfold list_gps_dates. run_M.
  destruct (get_or_create_container "gps-data" w) as [[[conn container]|e] t].
  - destruct (list_blobs w conn container); cbn; by rewrite ?app_nil_r.
  - cbn. by rewrite app_nil_r.
Qed.

(** C8: over the stored blob names, [list_gps_dates] answers 200 with the
    dates derived from the path segments of the names, without duplicates
    and in ascending order; for the names a/2024/01/02/..., a/2024/01/02/...
    and b/2024/02/10/... the answer is 2024-01-02, 2024-02-10. *)
Theorem list_gps_dates_sorted_distinct (w : world) (conn : string) (names : list string) :
  environ w !! "STORAGE_CONNECTION_STRING" = Some conn →
  from_connection_string w conn = Ok () →
  get_container_client w conn "gps-data" = Ok ()
    ∨ create_container w conn "gps-data" = Ok () →
  list_blobs w conn "gps-data" = Ok names →
  ∃ dates,
    outcome (list_gps_dates w)
    = Ok (HttpResponse (JsonBody (VList (VStr <$> dates))) 200 (Some "application/json")) ∧
    StronglySorted String.le dates ∧
    NoDup dates ∧
    (∀ x, x ∈ dates ↔ ∃ name, name ∈ names ∧ date_of name = Some x) ∧
    (names = ["a/2024/01/02/..."; "a/2024/01/02/..."; "b/2024/02/10/..."] →
     dates = ["2024-01-02"; "2024-02-10"]).
Proof.
  intros Henv Hconn Hclient Hlist. exists (sorted (collect_dates names)).
  split; [|split; [|split; [|split]]].
  - rewrite list_gps_dates_run, get_or_create_container_run, Henv, Hconn.
    destruct (get_container_client w conn "gps-data") as [[]|e].
    + by rewrite Hlist.
    + destruct Hclient as [?|Hcreate]; [discriminate|].
      rewrite Hcreate. by rewrite Hlist.
  - apply sorted_StronglySorted.
  - apply sorted_NoDup.
  - intros x. rewrite elem_of_sorted. apply elem_of_collect_dates.
  - intros ->. by vm_compute.
Qed.

End listing.

(** ** The reference geometry: distances *)

Section reference_geometry.
Import Py F64 Geo Planar.
Local Open Scope Q_scope.

Lemma sqrt64_nonneg (q : Q) : 0 <= sqrt64 q.
Proof.
  unfold sqrt64. destruct (Qle_bool q 0); [apply Qle_refl|].
  cbv zeta. rewrite Qred_correct. apply Qmult_le_0_compat.
  - change 0 with (inject_Z 0). rewrite <- Zle_Qle.
    pose proof (Z.sqrt_nonneg (Qfloor (q / Qpow2 (2 * (Qlog2 q / 2 - 52))))).
    destruct (Qcompare _ _); [destruct (Z.even _)|..]; lia.
  - apply Qlt_le_weak, Qpow2_pos.
Qed.

Lemma point_to_segment_nonneg (p : Q * Q) (e : (Q * Q) * (Q * Q)) :
  0 <= point_to_segment p e.
Proof.
  destruct e as [a b]. unfold point_to_segment, point_distance.
  destruct (same a b); [apply sqrt64_nonneg|]. cbv zeta.
  destruct (Qle_bool _ 0); [apply sqrt64_nonneg|].
  destruct (Qle_bool 1 _); [apply sqrt64_nonneg|].
  apply binary64_nonneg, Qmult_le_0_compat; [apply Qabs_nonneg | apply sqrt64_nonneg].
Qed.

Lemma foldr_Qmin_nonneg (d : Q) (ds : list Q) :
  0 <= d → Forall (Qle 0) ds → 0 <= foldr Qmin d ds.
Proof.
  intros Hd Hds. induction Hds as [|x ds Hx _ IH]; cbn [foldr]; [exact Hd|].
  destruct (Q.min_spec x (foldr Qmin d ds)) as [[_ ->]|[_ ->]]; assumption.
Qed.

(** The distance to a ring, when it is a number, is not negative. *)
Lemma ring_distance_nonneg (p : Q * Q) (ring : list (Q * Q)) (d : Q) :
  ring_distance p ring = Finite d → 0 <= d.
Proof.
  unfold ring_distance. destruct (edges ring) as [|e es]; [discriminate|].
  cbn [fmap list_fmap]. intros [= <-]. apply foldr_Qmin_nonneg.
  - apply point_to_segment_nonneg.
  - apply Forall_fmap, Forall_forall. intros ? _. apply point_to_segment_nonneg.
Qed.

End reference_geometry.

(** ** Worked examples on the reference geometry *)

Section examples.
Import Py F64 Eff Geo App Sample.
Local Existing Instance Planar.planar.

Lemma point_in_geofence_polygon_witness :
  contains box near_edge = Ok true ∧
  outcome (point_in_geofence (VNum 36.5275) (VNum 5.8699) polygon_geometry
             (local_world polygon_geometry))
  = Ok (VNum near_edge_decision).
Proof.
  split; [by vm_compute|].
  pose (q0 := match Planar.ring_distance near_edge box with Finite q => q | NaN => 0%Q end).
  assert (Hd : boundary_distance near_edge box = Ok (Finite q0)) by (by vm_compute).
  assert (Hle : (binary64 (q0 * 111000) <= 50)%Q) by (by vm_compute).
  pose proof (proj1 (proj2 (proj1
    (point_in_geofence_polygon (VNum 36.5275) (VNum 5.8699) polygon_geometry
       polygon_geometry (VList [ring]) ring near_edge box true (Finite q0)
       (local_world polygon_geometry)
       ltac:(by vm_compute) ltac:(by vm_compute) ltac:(by vm_compute)
       ltac:(by vm_compute) ltac:(by vm_compute) ltac:(by vm_compute)
       ltac:(by vm_compute) Hd) q0 eq_refl)) eq_refl Hle) as H.
  rewrite H. by vm_compute.
Defined.

(** At the threshold the product is rounded: the distance
    0x1.d854df401d855p-12 times 111000 is exactly 50 in binary64, though
    the exact product is above 50; the decision is then -50 or 50, not a
    sentinel. *)
Lemma threshold_product_rounded :
  (50 < threshold_distance * 111000)%Q ∧
  metres (Finite threshold_distance) = Finite 50 ∧
  gt50 (metres (Finite threshold_distance)) = false.
Proof. by vm_compute. Qed.

(** C1, counterexample: a Polygon whose ring is empty is not entered by
    any point and its distance is nan, which is not above 50; the result
    is that nan, not a non-negative number. *)
Lemma empty_ring_decision_nan :
  resolve_geometry empty_polygon_geometry = Ok empty_polygon_geometry ∧
  getitem empty_polygon_geometry "type" = Ok (VStr "Polygon") ∧
  Polygon (VList []) = Ok [] ∧
  contains [] near_edge = Ok false ∧
  boundary_distance near_edge [] = Ok NaN ∧
  gt50 (metres NaN) = false ∧
  outcome (point_in_geofence (VNum 36.5275) (VNum 5.8699) empty_polygon_geometry
             (local_world empty_polygon_geometry))
  = Ok VNaN ∧
  ¬ ∃ d, outcome (point_in_geofence (VNum 36.5275) (VNum 5.8699) empty_polygon_geometry
                    (local_world empty_polygon_geometry))
         = Ok (VNum d) ∧ (0 <= d)%Q.
Proof.
  assert (Hres : outcome (point_in_geofence (VNum 36.5275) (VNum 5.8699)
                            empty_polygon_geometry (local_world empty_polygon_geometry))
                 = Ok VNaN) by (by vm_compute).
  repeat split; try (by vm_compute). rewrite Hres. intros (d & [=] & _).
Qed.

Lemma alert_iff_decision_le0_witness :
  outcome (point_in_geofence (VNum 36.5275) (VNum 5.8699) polygon_geometry
             (local_world polygon_geometry))
  = Ok (VNum near_edge_decision) ∧
  alert_calls (trace (process_geofence_event (VDict (event 36.5275 5.8699)) "tracker-7"
                        (local_world polygon_geometry)))
  = [(VNum 36.5275, VNum 5.8699, near_edge_decision, "tracker-7")].
Proof.
  split; [by vm_compute|].
  refine (proj1 (proj2
    (alert_iff_decision_le0 (VDict (event 36.5275 5.8699)) "tracker-7"
       (local_world polygon_geometry) (VNum 36.5275) (VNum 5.8699) polygon_geometry
       _ _ _ _)) near_edge_decision _ _);
    by vm_compute.
Defined.

Lemma missing_coordinates_dropped_witness :
  downloads (trace (process_geofence_event (VDict {[ "deviceId" := VStr "tracker-7" ]})
                      "tracker-7" (local_world polygon_geometry))) = [] ∧
  alert_calls (trace (process_geofence_event (VDict {[ "deviceId" := VStr "tracker-7" ]})
                        "tracker-7" (local_world polygon_geometry))) = [].
Proof.
  assert (Habs : coordinates_absent (VDict {[ "deviceId" := VStr "tracker-7" ]})).
  { split; [repeat split; reflexivity|]. intros g Hg. vm_compute in Hg. discriminate. }
  pose proof (missing_coordinates_dropped (VDict {[ "deviceId" := VStr "tracker-7" ]})
                "tracker-7" (local_world polygon_geometry) Habs)
    as (Hd & Ha & _).
  split; [exact Hd | exact Ha].
Defined.

Lemma point_in_geofence_fallback_witness :
  outcome (point_in_geofence (VStr "north") (VNum 5.8699) polygon_geometry
             (local_world polygon_geometry))
  = Ok (VNum 999).
Proof.
  refine (proj1 (point_in_geofence_fallback (VStr "north") (VNum 5.8699)
                   polygon_geometry TypeError (local_world polygon_geometry) _)).
  reflexivity.
Defined.

Lemma feature_collection_first_feature_witness :
  point_in_geofence (VNum 36.5275) (VNum 5.8699)
    (feature_collection [feature polygon_geometry; feature point_geometry])
    (local_world VNone)
  = point_in_geofence (VNum 36.5275) (VNum 5.8699)
      (feature_collection [feature polygon_geometry])
      (local_world VNone) ∧
  point_in_geofence (VNum 36.5275) (VNum 5.8699)
    (feature_collection [feature polygon_geometry; feature point_geometry])
    (local_world VNone)
  = point_in_geofence (VNum 36.5275) (VNum 5.8699) polygon_geometry (local_world VNone) ∧
  outcome (point_in_geofence (VNum 36.5275) (VNum 5.8699) polygon_geometry
             (local_world VNone))
  = Ok (VNum near_edge_decision).
Proof.
  pose (fc := λ features : list value,
          list_to_map (M := gmap string value)
            [("type", VStr "FeatureCollection"); ("features", VList features)]).
  destruct (feature_collection_first_feature (VNum 36.5275) (VNum 5.8699)
              (fc [feature polygon_geometry; feature point_geometry])
              (fc [feature polygon_geometry])
              (feature polygon_geometry) (feature polygon_geometry)
              [feature point_geometry] [] (local_world VNone) (local_world VNone)
              eq_refl eq_refl eq_refl eq_refl eq_refl) as (Hsame & Halone & _).
  split; [exact Hsame|]. split.
  - apply (Halone polygon_geometry); by vm_compute.
  - by vm_compute.
Defined.

Lemma send_geofence_alert_never_raises_witness :
  last (trace (send_geofence_alert (VNum 36.5275) (VNum 5.8699) (-999) "tracker-7"
                 (mail_world polygon_geometry)))
  = Some (Log ERROR (MsgSendFailed SendError)).
Proof.
  refine (proj2 (proj2 (proj2
    (send_geofence_alert_never_raises (VNum 36.5275) (VNum 5.8699) (-999) "tracker-7"
       (mail_world polygon_geometry))) "SG.key" SendError _ _));
    reflexivity.
Defined.



Lemma list_gps_dates_sorted_distinct_witness :
  ∃ dates,
    outcome (list_gps_dates (listing_world stored_names))
    = Ok (HttpResponse (JsonBody (VList (VStr <$> dates))) 200 (Some "application/json")) ∧
    dates = ["2024-01-02"; "2024-02-10"].
Proof.
  destruct (list_gps_dates_sorted_distinct (listing_world stored_names)
              "UseDevelopmentStorage=true" stored_names
              eq_refl eq_refl (or_introl eq_refl) eq_refl)
    as (dates & Hout & _ & _ & _ & Hex).
  exists dates. split; [exact Hout | exact (Hex eq_refl)].
Defined.

(** C3: a boundary whose geometry type is not Polygon, here a Point, makes
    [point_in_geofence] return [None] rather than 999; the comparison of
    line 108 then raises TypeError out of [process_geofence_event]. *)
Theorem non_polygon_geometry_returns_none :
  outcome (point_in_geofence (VNum 36.5275) (VNum 5.8699) point_geometry
             (local_world point_geometry))
  = Ok VNone ∧
  outcome (process_geofence_event (VDict (event 36.5275 5.8699)) "tracker-7"
             (local_world point_geometry))
  = Raise TypeError.
Proof. split; reflexivity. Qed.

(** C4: a payload that supplies both coordinates as numbers, with latitude
    0, is rejected as if the coordinates were absent: [0 or None] is
    [None]. No boundary is fetched. *)
Theorem zero_latitude_rejected :
  event 0 5.8699 !! "lat" = Some (VNum 0) ∧
  event 0 5.8699 !! "lon" = Some (VNum 5.8699) ∧
  extract_coordinates (VDict (event 0 5.8699)) = Ok (VNone, VNum 5.8699) ∧
  process_geofence_event (VDict (event 0 5.8699)) "tracker-7"
    (local_world polygon_geometry)
  = (Ok (),
     [Log INFO (MsgProcessing "tracker-7" (VDict (event 0 5.8699)));
      Log ERROR MsgNoCoordinates]).
Proof. repeat split; reflexivity. Qed.

End examples.

(** * Further properties *)

(** ** Blob names and their dates *)

Section names.
Import Py Eff Geo App Hub.

Lemma append_cons (c : ascii) (a b : string) : String c a ++ b = String c (a ++ b).
Proof. reflexivity. Qed.

Lemma append_nil (b : string) : "" ++ b = b.
Proof. reflexivity. Qed.

Lemma split_nonempty (sep : ascii) (s : string) : split sep s ≠ [].
Proof.
  destruct s as [|c s]; cbn [split]; [discriminate|].
  destruct (bool_decide (c = sep)); [discriminate|].
  destruct (split sep s); discriminate.
Qed.

(** [(a + sep + b).split(sep) == a.split(sep) + b.split(sep)] *)
Lemma split_app_sep (sep : ascii) (a b : string) :
  split sep (a ++ String sep b) = (split sep a ++ split sep b)%list.
Proof.
  induction a as [|c a IH].
  - rewrite append_nil. cbn [split app]. by rewrite bool_decide_eq_true_2.
  - rewrite append_cons. cbn [split]. rewrite IH.
    destruct (bool_decide (c = sep)); [reflexivity|].
    pose proof (split_nonempty sep a) as Hne.
    destruct (split sep a) as [|part parts]; [contradiction|reflexivity].
Qed.

Lemma split_no_sep (sep : ascii) (s : string) : count_sep sep s = 0%nat → split sep s = [s].
Proof.
  induction s as [|c s IH]; cbn [split count_sep]; [reflexivity|].
  destruct (bool_decide (c = sep)); [discriminate|].
  intros H. by rewrite (IH H).
Qed.

Lemma length_split (sep : ascii) (s : string) :
  length (split sep s) = S (count_sep sep s).
Proof.
  induction s as [|c s IH]; cbn [split count_sep]; [reflexivity|].
  destruct (bool_decide (c = sep)); cbn [length]; [by rewrite IH|].
  pose proof (split_nonempty sep s) as Hne.
  destruct (split sep s) as [|part parts]; [contradiction|]. exact IH.
Qed.

Lemma count_sep_app (sep : ascii) (a b : string) :
  count_sep sep (a ++ b) = (count_sep sep a + count_sep sep b)%nat.
Proof.
  induction a as [|c a IH]; [reflexivity|].
  rewrite append_cons. cbn [count_sep]. rewrite IH. lia.
Qed.

Lemma digit_not_slash (n : nat) : digit n ≠ "/"%char.
Proof.
  unfold digit. generalize (n mod 10)%nat. intros k.
  do 9 (destruct k as [|k]; [discriminate|]). discriminate.
Qed.

Lemma pad_no_slash (width n : nat) : count_sep "/" (pad width n) = 0%nat.
Proof.
  revert n. induction width as [|width IH]; intros n; cbn [pad]; [reflexivity|].
  rewrite count_sep_app, IH. cbn [count_sep].
  by rewrite bool_decide_eq_false_2 by apply digit_not_slash.
Qed.

Lemma append_assoc (a b c : string) : (a ++ b) ++ c = a ++ b ++ c.
Proof. induction a as [|x a IH]; [reflexivity|]. by rewrite !append_cons, IH. Qed.

Lemma split_segment (a r : string) :
  count_sep "/" a = 0%nat → split "/" (a ++ "/" ++ r) = a :: split "/" r.
Proof.
  intros Ha. change (a ++ "/" ++ r) with (a ++ String "/" r).
  by rewrite split_app_sep, (split_no_sep _ _ Ha).
Qed.

(** The segments of a dated name whose parts have no slash. *)
Lemma split_dated (device y m d file : string) :
  count_sep "/" device = 0%nat →
  count_sep "/" y = 0%nat →
  count_sep "/" m = 0%nat →
  count_sep "/" d = 0%nat →
  split "/" (device ++ "/" ++ y ++ "/" ++ m ++ "/" ++ d ++ "/" ++ file)
  = device :: y :: m :: d :: split "/" file.
Proof.
  intros Hdev Hy Hm Hd.
  rewrite (split_segment device _ Hdev), (split_segment y _ Hy).
  by rewrite (split_segment m _ Hm), (split_segment d _ Hd).
Qed.

Lemma blob_name_eq (device : string) (t : datetime) :
  blob_name device t =
  device ++ "/" ++ pad 4 (year t) ++ "/" ++ pad 2 (month t) ++ "/" ++ pad 2 (day t)
  ++ "/" ++ (pad 2 (hour t) ++ pad 2 (minute t) ++ pad 2 (second t)) ++ ".json".
Proof.
  unfold blob_name, strftime_path.
  generalize (pad 4 (year t)) (pad 2 (month t)) (pad 2 (day t))
             (pad 2 (hour t) ++ pad 2 (minute t) ++ pad 2 (second t)).
  intros y m d file.
  change (?x ++ "/" ++ ?r) with (x ++ String "/" r).
  by rewrite !append_assoc, !append_cons, !append_nil.
Qed.

(** The segments of a blob name whose device part has no slash. *)
Lemma split_blob_name (device : string) (t : datetime) :
  count_sep "/" device = 0%nat →
  ∃ file,
    split "/" (blob_name device t) =
    device :: pad 4 (year t) :: pad 2 (month t) :: pad 2 (day t) :: split "/" file.
Proof.
  intros Hdev. eexists. rewrite blob_name_eq.
  apply split_dated; [exact Hdev | apply pad_no_slash..].
Qed.

(** X1: a sample stored under a device id without a slash is filed under
    the date of its blob name: the date derived from the name is the
    [%Y-%m-%d] print of the time the name was built from, and a listing
    that contains the name contains that date. *)
Theorem stored_name_date (device : string) (t : datetime) (names : list string) :
  count_sep "/" device = 0%nat →
  date_of (blob_name device t) = Some (strftime_date t) ∧
  (blob_name device t ∈ names → strftime_date t ∈ sorted (collect_dates names)).
Proof.
  intros Hdev.
  assert (Hdate : date_of (blob_name device t) = Some (strftime_date t)).
  { unfold date_of. destruct (split_blob_name device t Hdev) as [file ->].
    pose proof (split_nonempty "/" file) as Hne.
    destruct (split "/" file); [contradiction|]. reflexivity. }
  split; [exact Hdate|]. intros Hin.
  apply elem_of_sorted, elem_of_collect_dates. eauto.
Qed.

(** X2: a slash inside the device id shifts the segments: for a device id
    [a/b] the date derived from the blob name is [b-YYYY-MM], not the
    date of storage. *)
Theorem slash_in_device_id_shifts_date (a b : string) (t : datetime) :
  count_sep "/" a = 0%nat →
  count_sep "/" b = 0%nat →
  date_of (blob_name (a ++ "/" ++ b) t)
  = Some (b ++ "-" ++ pad 4 (year t) ++ "-" ++ pad 2 (month t)).
Proof.
  intros Ha Hb. unfold date_of. rewrite blob_name_eq.
  generalize ((pad 2 (hour t) ++ pad 2 (minute t) ++ pad 2 (second t)) ++ ".json").
  generalize (pad_no_slash 4 (year t)) (pad_no_slash 2 (month t)) (pad_no_slash 2 (day t)).
  generalize (pad 4 (year t)) (pad 2 (month t)) (pad 2 (day t)).
  intros y m d Hy Hm Hd file. rewrite !append_assoc.
  rewrite (split_segment a _ Ha), (split_segment b _ Hb).
  rewrite (split_segment y _ Hy), (split_segment m _ Hm).
  reflexivity.
Qed.

(** X3: line 168 keeps exactly the names with at least three slashes. *)
Theorem date_of_some_iff (name : string) :
  is_Some (date_of name) ↔ (3 ≤ count_sep "/" name)%nat.
Proof.
  unfold date_of. pose proof (length_split "/" name) as Hlen.
  destruct (split "/" name) as [|p0 [|p1 [|p2 [|p3 rest]]]]; cbn [length] in Hlen.
  1-4: split; [intros [? [=]] | lia].
  split; [lia | by eexists].
Qed.

End names.

(** ** More on the date listing *)

Section listing_more.
Import Py Eff Geo App Hub.

(** X4: the listing depends on the set of blob names only: neither their
    order nor repetitions change the answer. *)
Theorem dates_depend_on_name_set (names names' : list string) :
  (∀ name, name ∈ names ↔ name ∈ names') →
  sorted (collect_dates names) = sorted (collect_dates names').
Proof.
  intros Hsame. f_equal. apply set_eq. intros x.
  rewrite !elem_of_collect_dates. split; intros (name & Hin & Hd); exists name.
  - by rewrite <- Hsame.
  - by rewrite Hsame.
Qed.

(** X5: [list_gps_dates] never raises: it answers 200 with a JSON list, or
    500 with the exception. Without a storage connection string it
    answers 500 with KeyError and lists nothing; when the listing itself
    fails with [e] it answers 500 with [e]. *)
Theorem list_gps_dates_answers (w : world) :
  ((∃ dates, outcome (list_gps_dates w)
             = Ok (HttpResponse (JsonBody (VList (VStr <$> dates))) 200
                     (Some "application/json")))
   ∨ (∃ e, outcome (list_gps_dates w) = Ok (HttpResponse (ErrorBody e) 500 None))) ∧
  (environ w !! "STORAGE_CONNECTION_STRING" = None →
   list_gps_dates w = (Ok (HttpResponse (ErrorBody KeyError) 500 None), [])) ∧
  (∀ conn e,
     environ w !! "STORAGE_CONNECTION_STRING" = Some conn →
     from_connection_string w conn = Ok () →
     get_container_client w conn "gps-data" = Ok () →
     list_blobs w conn "gps-data" = Raise e →
     outcome (list_gps_dates w) = Ok (HttpResponse (ErrorBody e) 500 None)).
Proof.
  rewrite list_gps_dates_run, get_or_create_container_run. unfold outcome.
  destruct (environ w !! "STORAGE_CONNECTION_STRING") as [conn|];
    [|split; [right; by eexists|]; split; [reflexivity | discriminate]].
  split; [|split; [discriminate|]].
  - destruct (from_connection_string w conn) as [[]|e0]; [|right; by eexists].
    destruct (get_container_client w conn "gps-data") as [[]|e1].
    + destruct (list_blobs w conn "gps-data"); [left | right]; by eexists.
    + destruct (create_container w conn "gps-data") as [[]|e2]; [|right; by eexists].
      destruct (list_blobs w conn "gps-data"); [left | right]; by eexists.
  - intros conn' e [= <-] -> -> ->. reflexivity.
Qed.

End listing_more.

(** ** More on the geofence path *)

Section geofence_more.
Import Py F64 Eff Geo App Hub.
Context {G : Shapely}.

Lemma polygon_decision_range (pt : point) (ring v : value) :
  distance_nonneg G →
  polygon_decision pt ring = Ok v →
  v = VNaN ∨
  ∃ d, v = VNum d ∧ (d = (-999)%Q ∨ d = 999%Q ∨ (-50 <= d ∧ d <= 50)%Q).
Proof.
  intros Hnn. unfold polygon_decision, rbind.
  destruct (Polygon ring) as [poly|]; [|discriminate].
  destruct (contains poly pt) as [inside|]; [|discriminate].
  destruct (boundary_distance pt poly) as [[d0|]|] eqn:Hd;
    [| destruct inside; intros [= <-]; by left | destruct inside; discriminate].
  pose proof (metres_nonneg d0 (Hnn pt poly d0 Hd)) as Hpos.
  rewrite !metres_Finite.
  destruct inside; destruct (gt50 (Finite _)) eqn:Hgt; intros [= <-];
    right; eexists; (split; [reflexivity|]); auto.
  - apply gt50_false in Hgt. right. right. split.
    + apply Qopp_le_compat in Hgt. exact Hgt.
    + apply Qle_trans with 0%Q; [|discriminate].
      apply (Qopp_le_compat 0). exact Hpos.
  - apply gt50_false in Hgt. right. right. split; [|exact Hgt].
    apply Qle_trans with 0%Q; [discriminate | exact Hpos].
Qed.

(** X6: when the distances the library returns are nan or non-negative
    numbers, the value [point_in_geofence] returns is [None], nan, or a
    number that is -999, 999 or between -50 and 50. *)
Theorem point_in_geofence_range (lat lon geofence_data : value) (w : world) :
  distance_nonneg G →
  ∃ v, outcome (point_in_geofence lat lon geofence_data w) = Ok v ∧
       (v = VNone ∨ v = VNaN ∨
        ∃ d, v = VNum d ∧ (d = (-999)%Q ∨ d = 999%Q ∨ (-50 <= d ∧ d <= 50)%Q)).
Proof.
  intros Hnn. rewrite point_in_geofence_run, point_in_geofence_try_run. unfold outcome.
  assert (Hfb : ∃ d, VNum 999 = VNum d ∧
                     (d = (-999)%Q ∨ d = 999%Q ∨ (-50 <= d ∧ d <= 50)%Q))
    by (eexists; split; [reflexivity|]; auto).
  destruct (Point lon lat) as [pt|]; [|eexists; split; [reflexivity|]; auto].
  destruct (resolve_geometry geofence_data) as [geometry|]; cbn [rbind];
    [|eexists; split; [reflexivity|]; auto].
  destruct (geometry_decision pt geometry) as [v|] eqn:Hv;
    [|eexists; split; [reflexivity|]; auto].
  exists v. split; [reflexivity|]. revert Hv. unfold geometry_decision, rbind.
  destruct (getitem geometry "type") as [ty|]; [|discriminate].
  destruct (eq_str ty "Polygon"); [|intros [= <-]; by left].
  destruct (getitem geometry "coordinates") as [c|]; [|discriminate].
  destruct (getitem0 c) as [ring|]; [|discriminate].
  intros Hv. right. by eapply polygon_decision_range.
Qed.

(** X7: a boundary object that is not an object, has no [type], is a
    FeatureCollection without features, or is a Polygon without a first
    ring, gives 999 for every latitude and longitude. *)
Theorem malformed_boundary_outside (lat lon geofence_data : value) (w : world) :
  (∀ d, geofence_data ≠ VDict d)
  ∨ (∃ d, geofence_data = VDict d ∧
          (d !! "type" = None
           ∨ (d !! "type" = Some (VStr "FeatureCollection") ∧
              (d !! "features" = None ∨ d !! "features" = Some (VList [])))
           ∨ (d !! "type" = Some (VStr "Polygon") ∧
              (d !! "coordinates" = None ∨ d !! "coordinates" = Some (VList []))))) →
  outcome (point_in_geofence lat lon geofence_data w) = Ok (VNum 999).
Proof.
  intros Hbad. rewrite point_in_geofence_run, point_in_geofence_try_run. unfold outcome.
  destruct (Point lon lat) as [pt|]; [|reflexivity].
  assert (Hraise : ∃ e, rbind (resolve_geometry geofence_data) (geometry_decision pt)
                        = Raise e).
  { destruct Hbad as [Hnd|(d & -> & [Hty|[[Hty Hfs]|[Hty Hco]]])].
    - destruct geofence_data; try (by eexists). by destruct (Hnd d).
    - unfold resolve_geometry. cbn. rewrite Hty. by eexists.
    - unfold resolve_geometry. cbn. rewrite Hty. cbn.
      destruct Hfs as [-> | ->]; by eexists.
    - unfold resolve_geometry, geometry_decision, getitem, rbind. rewrite Hty.
      cbn [eq_str]. rewrite bool_decide_eq_false_2 by discriminate. rewrite Hty.
      cbn [eq_str]. rewrite bool_decide_eq_true_2 by reflexivity.
      destruct Hco as [-> | ->]; by eexists. }
  destruct Hraise as [e ->]. reflexivity.
Qed.

(** X8: an evaluation that fails inside [point_in_geofence] does not abort
    the event: the run returns, ends with the outside record for 999 and
    enters no alert. *)
Theorem evaluation_error_no_alert (event_body : value) (device_id : string)
    (w : world) (lat lon geofence_data : value) (e : exn) :
  extract_coordinates event_body = Ok (lat, lon) →
  is_none lat = false →
  is_none lon = false →
  outcome (load_geofence w) = Ok geofence_data →
  outcome (point_in_geofence_try lat lon geofence_data w) = Raise e →
  let run := process_geofence_event event_body device_id w in
  outcome run = Ok () ∧
  last (trace run) = Some (Log INFO (MsgOutside 999)) ∧
  alert_calls (trace run) = [].
Proof.
  intros Hex Hlat Hlon Hload Htry run. subst run.
  assert (Hdec : outcome (point_in_geofence lat lon geofence_data w) = Ok (VNum 999)).
  { rewrite point_in_geofence_run. revert Htry. unfold outcome.
    destruct (point_in_geofence_try lat lon geofence_data w) as [[v|e'] t]; cbn;
      [discriminate | reflexivity]. }
  split; [|split].
  - rewrite process_geofence_event_run, Hex, Hlat, Hlon. cbn [orb].
    revert Hload. unfold outcome at 1.
    destruct (load_geofence w) as [[g|] t]; [|discriminate]. cbn [fst].
    intros [= ->]. by rewrite Hdec.
  - rewrite process_geofence_event_run, Hex, Hlat, Hlon. cbn [orb].
    revert Hload. unfold outcome at 1.
    destruct (load_geofence w) as [[g|] t]; [|discriminate]. cbn [fst].
    intros [= ->]. rewrite Hdec. cbn [number].
    change (Qle_bool 999 0) with false. cbv iota zeta. unfold trace at 1. cbn [snd].
    apply last_snoc.
  - rewrite (process_alert_calls event_body device_id w lat lon geofence_data
               Hex Hlat Hlon Hload), Hdec. reflexivity.
Qed.

End geofence_more.

(** ** More on the pipeline and the dispatcher *)

Section pipeline_more.
Import Py Eff Geo App Hub.
Context {G : Shapely}.

Lemma downloads_point_in_geofence (lat lon g : value) (w : world) :
  downloads (trace (point_in_geofence lat lon g w)) = [].
Proof. by destruct (point_in_geofence_total lat lon g w) as (v & t & -> & _ & _ & Hd & _). Qed.

(** X9: a run whose coordinates pass the check and whose storage
    connection opens downloads the boundary exactly once, from the
    container and blob the environment names, by default [geofences] and
    [geofence/geofence.json]. *)
Theorem boundary_downloaded_once (event_body : value) (device_id : string)
    (w : world) (lat lon : value) (conn : string) :
  extract_coordinates event_body = Ok (lat, lon) →
  is_none lat = false →
  is_none lon = false →
  environ w !! "STORAGE_CONNECTION_STRING" = Some conn →
  from_connection_string w conn = Ok () →
  downloads (trace (process_geofence_event event_body device_id w))
  = [(conn,
      default "geofences" (environ w !! "GEOFENCE_CONTAINER"),
      default "geofence/geofence.json" (environ w !! "GEOFENCE_BLOB_NAME"))].
Proof.
  intros Hex Hlat Hlon Henv Hconn.
  rewrite process_geofence_event_run, Hex, Hlat, Hlon. cbn [orb].
  rewrite load_geofence_run, Henv, Hconn. cbv zeta.
  destruct (download_blob w conn _ _) as [g|e]; [|reflexivity].
  pose proof (downloads_point_in_geofence lat lon g w) as Hpt.
  destruct (outcome (point_in_geofence lat lon g w)) as [v|e]; [|
    unfold trace at 1; cbn [snd];
    repeat (rewrite downloads_app || rewrite downloads_log || rewrite downloads_cons);
    by rewrite Hpt].
  destruct (number v) as [[d|]|e]; [| |
    unfold trace at 1; cbn [snd];
    repeat (rewrite downloads_app || rewrite downloads_log || rewrite downloads_cons);
    by rewrite Hpt].
  - destruct (Qle_bool d 0); unfold trace at 1; cbn [snd];
      repeat (rewrite downloads_app || rewrite downloads_log || rewrite downloads_cons);
      rewrite Hpt, ?send_geofence_alert_no_download; reflexivity.
  - unfold trace at 1; cbn [snd].
    repeat (rewrite downloads_app || rewrite downloads_log || rewrite downloads_cons).
    by rewrite Hpt.
Qed.

(** X10: when the boundary cannot be loaded (no connection string, a
    connection, download or decoding error), the run raises that very
    exception and neither enters the alert path nor attempts a send. *)
Theorem load_failure_no_alert (event_body : value) (device_id : string)
    (w : world) (lat lon : value) (e : exn) :
  extract_coordinates event_body = Ok (lat, lon) →
  is_none lat = false →
  is_none lon = false →
  outcome (load_geofence w) = Raise e →
  let run := process_geofence_event event_body device_id w in
  outcome run = Raise e ∧
  alert_calls (trace run) = [] ∧
  send_attempts (trace run) = [].
Proof.
  intros Hex Hlat Hlon Hload run. subst run.
  rewrite process_geofence_event_run, Hex, Hlat, Hlon. cbn [orb].
  revert Hload. rewrite load_geofence_run. unfold outcome, trace.
  destruct (environ w !! "STORAGE_CONNECTION_STRING") as [conn|];
    [|by intros [= ->]].
  destruct (from_connection_string w conn); [|by intros [= ->]].
  cbv zeta. destruct (download_blob w conn _ _); [discriminate|].
  by intros [= ->].
Qed.

(** X11: a [gps] member hides the top level: when the payload has a [gps]
    object without coordinates, the event is dropped even though latitude
    and longitude are present at top level. *)
Theorem gps_member_shadows_top_level (d g : gmap string value) (device_id : string)
    (w : world) :
  d !! "gps" = Some (VDict g) →
  lacks_coordinates g →
  process_geofence_event (VDict d) device_id w
  = (Ok (), [Log INFO (MsgProcessing device_id (VDict d)); Log ERROR MsgNoCoordinates]).
Proof.
  intros Hgps Hg. rewrite process_geofence_event_run.
  rewrite (extract_lacking d g); [reflexivity | by rewrite Hgps | exact Hg].
Qed.

(** X12: with [SendGridApiKey] set, every call attempts exactly one send,
    with that key; the message names the device and the coordinates,
    carries the absolute value of the distance, and is sent from
    [SenderEmail], by default notifications@yourdomain.com, to
    [AlertRecipientEmail]. *)
Theorem configured_alert_sends_once (lat lon : value) (distance : Q)
    (device_id api_key : string) (w : world) :
  environ w !! "SendGridApiKey" = Some api_key →
  ∃ m, send_attempts (trace (send_geofence_alert lat lon distance device_id w))
       = [(api_key, m)] ∧
       subject_device m = device_id ∧
       body_lat m = lat ∧ body_lon m = lon ∧
       body_distance m = Qabs distance ∧ (0 <= body_distance m)%Q ∧
       from_email m = default "notifications@yourdomain.com" (environ w !! "SenderEmail") ∧
       to_emails m = environ w !! "AlertRecipientEmail".
Proof.
  intros Hkey. exists (alert_mail lat lon distance device_id w).
  rewrite send_geofence_alert_run, Hkey. unfold trace. cbn.
  split; [by destruct (sendgrid_send _ _ _)|].
  repeat split. apply Qabs_nonneg.
Qed.

End pipeline_more.

(** ** The triggers *)

(** Unfolds the handlers' monad so that a run becomes a plain term. *)
Ltac run_SM :=
  cbv [mbind Hub.SM_bind mret Hub.SM_ret Hub.hub_lift Hub.hub_emit Hub.hub_ask
       Hub.hub_log Hub.hub_try_except Hub.utcnow_at Hub.hub_outcome Hub.hub_trace].

Section triggers.
Import Py Eff Geo App Hub.
Context {G : Shapely}.

Lemma base_events_app (t t' : list record) :
  base_events (t ++ t') = (base_events t ++ base_events t')%list.
Proof. apply omap_app. Qed.

Lemma base_events_Base (t : list event) : base_events (Base <$> t) = t.
Proof. induction t as [|ev t IH]; [reflexivity|]. cbn. by f_equal. Qed.

Lemma uploads_app (t t' : list record) :
  uploads (t ++ t') = (uploads t ++ uploads t')%list.
Proof. apply omap_app. Qed.

Lemma uploads_Base (t : list event) : uploads (Base <$> t) = [].
Proof. induction t as [|ev t IH]; [reflexivity|]. exact IH. Qed.

Lemma run_run {A} (m : M A) (w : hub_world) :
  run m w = ((m (base w)).1, Base <$> (m (base w)).2).
Proof. unfold run. by destruct (m (base w)). Qed.

(** The geofence trigger, run. *)
Lemma geofence_trigger_run (ev : hub_event) (w : hub_world) :
  geofence_trigger ev w =
  let failed pre e :=
    (Ok (), (HubLog INFO MsgGeofenceStarted :: pre
             ++ [HubLog ERROR (MsgGeofenceFailed e)])%list) in
  match body ev with
  | Raise e => failed [] e
  | Ok event_body =>
      match device_id_of ev event_body with
      | Raise e => failed [] e
      | Ok device_id =>
          let r := process_geofence_event event_body (format w device_id) (base w) in
          match outcome r with
          | Ok _ => (Ok (), HubLog INFO MsgGeofenceStarted :: (Base <$> trace r))
          | Raise e => failed (Base <$> trace r) e
          end
      end
  end.
Proof.
  unfold geofence_trigger. run_SM. cbv zeta.
  destruct (body ev) as [event_body|]; [|reflexivity].
  destruct (device_id_of ev event_body) as [device_id|]; [|reflexivity].
  cbn [app]. rewrite run_run. unfold outcome, trace.
  destruct (process_geofence_event _ _ _) as [[[]|e] t]; cbn [fst snd];
    by rewrite ?app_nil_r.
Qed.

(** X13: [geofence_trigger] never raises and uploads nothing; when the
    body cannot be decoded (exception [e]) it only logs the failure. *)
Theorem geofence_trigger_never_raises (ev : hub_event) (w : hub_world) :
  hub_outcome (geofence_trigger ev w) = Ok () ∧
  uploads (hub_trace (geofence_trigger ev w)) = [] ∧
  (∀ e, body ev = Raise e →
        hub_trace (geofence_trigger ev w)
        = [HubLog INFO MsgGeofenceStarted; HubLog ERROR (MsgGeofenceFailed e)]).
Proof.
  rewrite geofence_trigger_run. cbv zeta. unfold hub_outcome, hub_trace.
  destruct (body ev) as [event_body|e0].
  - split; [|split; [|discriminate]].
    + destruct (device_id_of ev event_body); [|reflexivity].
      by destruct (outcome _).
    + destruct (device_id_of ev event_body) as [device_id|]; [|reflexivity].
      destruct (outcome _); cbn [snd].
      * change (uploads (?x :: ?t)) with (uploads t). apply uploads_Base.
      * change (uploads (?x :: ?t)) with (uploads t).
        by rewrite uploads_app, uploads_Base.
  - split; [reflexivity|]. split; [reflexivity|]. by intros e [= <-].
Qed.

(** X14: the device id the geofence path works with: the transport's
    [connection-device-id] when it is a non-empty string, whatever the
    payload says; without it the payload's [deviceId]; without both
    [unknown-device]. In each case the handler does what
    [process_geofence_event] does for that payload and device id. *)
Theorem geofence_trigger_device_id (ev : hub_event) (w : hub_world)
    (m d : gmap string value) :
  iothub_metadata ev = VDict m →
  body ev = Ok (VDict d) →
  let events := base_events (hub_trace (geofence_trigger ev w)) in
  (∀ s, m !! "connection-device-id" = Some (VStr s) → s ≠ "" →
        events = trace (process_geofence_event (VDict d) s (base w))) ∧
  (∀ s, m !! "connection-device-id" = None → d !! "deviceId" = Some (VStr s) →
        events = trace (process_geofence_event (VDict d) s (base w))) ∧
  (m !! "connection-device-id" = None → d !! "deviceId" = None →
   events = trace (process_geofence_event (VDict d) "unknown-device" (base w))).
Proof.
  intros Hmeta Hbody events.
  assert (Hrun : ∀ s, device_id_of ev (VDict d) = Ok (VStr s) →
            events = trace (process_geofence_event (VDict d) s (base w))).
  { intros s Hid. subst events. rewrite geofence_trigger_run, Hbody, Hid. cbv zeta.
    cbn [format]. unfold hub_trace.
    destruct (outcome _); cbn [snd].
    - change (base_events (?x :: ?t)) with (base_events t). apply base_events_Base.
    - change (base_events (HubLog ?l ?x :: ?t)) with (base_events t).
      rewrite base_events_app, base_events_Base. apply app_nil_r. }
  split; [|split].
  - intros s Hs Hne. apply Hrun. unfold device_id_of. rewrite Hmeta. cbn [get rbind].
    rewrite Hs. cbn. by rewrite bool_decide_eq_false_2.
  - intros s Hm Hd. apply Hrun. unfold device_id_of. rewrite Hmeta. cbn [get rbind].
    rewrite Hm. cbn. by rewrite Hd.
  - intros Hm Hd. apply Hrun. unfold device_id_of. rewrite Hmeta. cbn [get rbind].
    rewrite Hm. cbn. by rewrite Hd.
Qed.

(** X15: a boundary whose geometry is not a Polygon does not stop the
    consumer: the TypeError raised in [process_geofence_event] is caught by
    the trigger, which logs it as its last record, returns, and has
    entered no alert. *)
Theorem geofence_trigger_other_type (ev : hub_event) (w : hub_world)
    (event_body device_id lat lon geofence_data geometry ty : value) (pt : point) :
  body ev = Ok event_body →
  device_id_of ev event_body = Ok device_id →
  extract_coordinates event_body = Ok (lat, lon) →
  is_none lat = false →
  is_none lon = false →
  outcome (load_geofence (base w)) = Ok geofence_data →
  Point lon lat = Ok pt →
  resolve_geometry geofence_data = Ok geometry →
  getitem geometry "type" = Ok ty →
  eq_str ty "Polygon" = false →
  hub_outcome (geofence_trigger ev w) = Ok () ∧
  last (hub_trace (geofence_trigger ev w)) = Some (HubLog ERROR (MsgGeofenceFailed TypeError)) ∧
  alert_calls (base_events (hub_trace (geofence_trigger ev w))) = [].
Proof.
  intros Hbody Hid Hex Hlat Hlon Hload HP Hr Hty Hne.
  pose proof (process_geofence_event_other_type event_body (format w device_id) (base w)
                lat lon geofence_data geometry ty pt Hex Hlat Hlon Hload HP Hr Hty Hne)
    as Hraise.
  pose proof (process_alert_calls event_body (format w device_id) (base w)
                lat lon geofence_data Hex Hlat Hlon Hload) as Hcalls.
  rewrite (point_in_geofence_other_type lat lon geofence_data geometry ty pt (base w)
             HP Hr Hty Hne) in Hcalls.
  rewrite geofence_trigger_run, Hbody, Hid. cbv zeta. rewrite Hraise.
  unfold hub_outcome, hub_trace. cbn [fst snd].
  split; [reflexivity|]. split.
  - rewrite app_comm_cons. apply last_snoc.
  - change (base_events (HubLog ?l ?x :: ?t)) with (base_events t).
    rewrite base_events_app, base_events_Base. cbn [base_events omap]. 
    rewrite app_nil_r. exact Hcalls.
Qed.

(** The storage trigger, run. *)
Lemma eventhub_trigger_run (ev : hub_event) (w : hub_world) :
  eventhub_trigger ev w =
  let failed pre e :=
    (Ok (), (HubLog INFO MsgEventHubStarted :: pre
             ++ [HubLog ERROR (MsgEventFailed e)])%list) in
  match body ev with
  | Raise e => failed [] e
  | Ok event_body =>
      match device_id_of ev event_body with
      | Raise e => failed [] e
      | Ok device_id =>
          let dev := format w device_id in
          let r := get_or_create_container "gps-data" (base w) in
          let pre := HubLog INFO (MsgProcessingData dev) :: (Base <$> trace r) in
          match outcome r with
          | Raise e => failed pre e
          | Ok (conn, container) =>
              match get (iothub_metadata ev) "enqueuedtime" VNone with
              | Raise e => failed pre e
              | Ok enqueued =>
                  match get event_body "gps" event_body with
                  | Raise e => failed pre e
                  | Ok gps =>
                      let name := blob_name dev (clock w 0) in
                      let timestamp :=
                        if truthy enqueued then enqueued
                        else VStr (isoformat (clock w 1)) in
                      let today := clock w (if truthy enqueued then 1 else 2)%nat in
                      let data :=
                        VDict (list_to_map
                                 [("device_id", device_id); ("timestamp", timestamp);
                                  ("gps", gps); ("date", VStr (strftime_date today))]) in
                      let pre' := (pre ++ [BlobUpload conn container name data])%list in
                      match upload_blob w conn container name data with
                      | Raise e => failed pre' e
                      | Ok _ =>
                          (Ok (),
                           (HubLog INFO MsgEventHubStarted :: pre'
                            ++ [HubLog INFO (MsgStored dev)])%list)
                      end
                  end
              end
          end
      end
  end.
Proof.
  unfold eventhub_trigger. run_SM. cbv zeta.
  destruct (body ev) as [event_body|]; [|reflexivity].
  destruct (device_id_of ev event_body) as [device_id|]; [|reflexivity].
  cbn [app]. rewrite run_run. unfold outcome, trace.
  destruct (get_or_create_container _ _) as [[[conn container]|e] t]; cbn [fst snd];
    [|by rewrite ?app_nil_r].
  destruct (get (iothub_metadata ev) "enqueuedtime" VNone) as [enqueued|];
    [|by rewrite ?app_nil_r].
  destruct (truthy enqueued);
    (destruct (get event_body "gps" event_body) as [gps|]; [|by rewrite ?app_nil_r]);
    cbn [app];
    (destruct (upload_blob w conn container _ _) as [[]|]; cbn [app fst snd];
     by rewrite ?app_nil_r, <- ?app_assoc).
Qed.

Lemma get_or_create_container_trace (name : string) (w : world) :
  trace (get_or_create_container name w) = [].
Proof.
  rewrite get_or_create_container_run. unfold trace.
  destruct (environ w !! "STORAGE_CONNECTION_STRING") as [conn|]; [|reflexivity].
  destruct (from_connection_string w conn); [|reflexivity].
  destruct (get_container_client w conn name); [reflexivity|].
  by destruct (create_container w conn name).
Qed.

(** X16: [eventhub_trigger] never raises, attempts at most one upload and
    touches neither the boundary blob nor the alert path; when the body
    cannot be decoded it uploads nothing. *)
Theorem eventhub_trigger_never_raises (ev : hub_event) (w : hub_world) :
  let t := hub_trace (eventhub_trigger ev w) in
  hub_outcome (eventhub_trigger ev w) = Ok () ∧
  (length (uploads t) ≤ 1)%nat ∧
  base_events t = [] ∧
  (∀ e, body ev = Raise e → uploads t = []).
Proof.
  intros t. subst t. rewrite eventhub_trigger_run. cbv zeta.
  rewrite get_or_create_container_trace. unfold hub_outcome, hub_trace. cbn [fmap list_fmap].
  destruct (body ev) as [event_body|e0];
    [|split; [reflexivity|]; split; [cbn; lia|]; split; reflexivity].
  split; [|split; [|split; [|discriminate]]].
  all: destruct (device_id_of ev event_body) as [device_id|]; [|by cbn; try lia].
  all: destruct (outcome _) as [[conn container]|]; [|by cbn; try lia].
  all: destruct (get (iothub_metadata ev) "enqueuedtime" VNone) as [enqueued|];
         [|by cbn; try lia].
  all: destruct (get event_body "gps" event_body) as [gps|]; [|by cbn; try lia].
  all: destruct (upload_blob w conn container _ _); by cbn; try lia.
Qed.

(** X17: an object payload is stored whether or not it holds coordinates:
    when the container is reached, the handler attempts exactly one upload
    into [gps-data], named after the device id and the first clock
    reading, whose record holds the device id, the payload's [gps] member
    or else the whole payload, and the date of a later clock reading. *)
Theorem eventhub_trigger_stores (ev : hub_event) (w : hub_world)
    (m d : gmap string value) (device_id : value) (conn : string) :
  body ev = Ok (VDict d) →
  iothub_metadata ev = VDict m →
  device_id_of ev (VDict d) = Ok device_id →
  environ (base w) !! "STORAGE_CONNECTION_STRING" = Some conn →
  from_connection_string (base w) conn = Ok () →
  get_container_client (base w) conn "gps-data" = Ok () →
  ∃ (data : gmap string value) (n : nat),
    uploads (hub_trace (eventhub_trigger ev w))
    = [(conn, "gps-data", blob_name (format w device_id) (clock w 0), VDict data)] ∧
    data !! "device_id" = Some device_id ∧
    data !! "gps" = Some (default (VDict d) (d !! "gps")) ∧
    data !! "date" = Some (VStr (strftime_date (clock w n))) ∧
    (1 ≤ n ≤ 2)%nat.
Proof.
  intros Hbody Hmeta Hid Henv Hconn Hget.
  rewrite eventhub_trigger_run, Hbody, Hid. cbv zeta.
  rewrite get_or_create_container_trace, get_or_create_container_run, Henv, Hconn, Hget.
  rewrite Hmeta. unfold outcome, hub_trace. cbn [fst get fmap list_fmap].
  set (enqueued := default VNone (m !! "enqueuedtime")).
  eexists _, (if truthy enqueued then 1 else 2)%nat.
  split; [|split; [|split; [|split]]].
  - by destruct (upload_blob w conn "gps-data" _ _).
  - reflexivity.
  - reflexivity.
  - reflexivity.
  - destruct (truthy enqueued); lia.
Qed.

(** The test event with a latitude of 0 is dropped at the coordinate check. *)
Lemma test_event_zero_latitude (lat : Q) (lon : float64) (w : world) :
  (lat == 0)%Q →
  process_geofence_event (test_event (Finite lat) lon) "test-device" w
  = (Ok (), [Log INFO (MsgProcessing "test-device" (test_event (Finite lat) lon));
             Log ERROR MsgNoCoordinates]).
Proof.
  intros Hzero. rewrite process_geofence_event_run.
  assert (Hex : ∃ v, extract_coordinates (test_event (Finite lat) lon) = Ok (VNone, v)).
  { unfold extract_coordinates, test_event. cbn [get rbind float_value].
    rewrite lookup_singleton_eq. cbn [default from_option id].
    rewrite (get_or_falsy _ "lat" "latitude" (VNum lat)).
    - rewrite lookup_insert_ne by done. rewrite lookup_singleton_ne by done.
      cbn [default rbind].
      destruct (get_or _ "lon" "longitude") as [v|] eqn:Hlon; [by eexists|].
      unfold get_or in Hlon. cbn [get rbind] in Hlon.
      destruct (truthy _) in Hlon; discriminate.
    - apply lookup_insert_eq.
    - cbn [truthy]. apply negb_false_iff, Qeq_bool_iff, Hzero. }
  destruct Hex as [v ->]. reflexivity.
Qed.

(** The test endpoint, run. *)
Lemma test_geofence_run (req : http_request) (w : hub_world) :
  test_geofence req w =
  match float_param req "lat" 36.5273%Q w with
  | (Raise e, t) => (Ok (TestResponse (Failed e) 500), t)
  | (Ok lat, t) =>
      match float_param req "lon" 5.86945%Q w with
      | (Raise e, t') => (Ok (TestResponse (Failed e) 500), (t ++ t')%list)
      | (Ok lon, t') =>
          let r := process_geofence_event (test_event lat lon) "test-device" (base w) in
          (Ok (match outcome r with
               | Ok _ => TestResponse (Completed lat lon) 200
               | Raise e => TestResponse (Failed e) 500
               end),
           (t ++ t' ++ (Base <$> trace r))%list)
      end
  end.
Proof.
  unfold test_geofence. run_SM. cbv zeta.
  destruct (float_param req "lat" _ w) as [[lat|] t]; [|by rewrite app_nil_r].
  destruct (float_param req "lon" _ w) as [[lon|] t']; [|by rewrite !app_nil_r].
  rewrite run_run. unfold outcome, trace.
  destruct (process_geofence_event _ _ _) as [[[]|e] t'']; cbn [fst snd];
    by rewrite ?app_nil_r.
Qed.

Lemma float_param_trace (req : http_request) (k : string) (dflt : Q) (w : hub_world) :
  (float_param req k dflt w).2 = [].
Proof.
  unfold float_param. destruct (params req !! k); [|reflexivity].
  run_SM. by destruct (float_of_string w s).
Qed.

(** X18: [test_geofence] never raises: for every request and world it
    returns a response, 200 with the two numbers or 500 with an exception.
    A latitude parameter that [float] rejects gives 500 with that
    exception before anything else happens, and so does a longitude
    parameter that [float] rejects after the latitude was read:
    [process_geofence_event] is not run. When both are read, or default,
    the handler does what [process_geofence_event] does for the event
    built from the two numbers and the device id test-device, and answers
    200 exactly when that call returns, 500 with its exception when it
    raises. *)
Theorem test_geofence_answers (req : http_request) (w : hub_world) :
  (∃ resp, hub_outcome (test_geofence req w) = Ok resp ∧
           ((∃ lat lon, resp = TestResponse (Completed lat lon) 200) ∨
            (∃ e, resp = TestResponse (Failed e) 500))) ∧
  (∀ s e, params req !! "lat" = Some s → float_of_string w s = Raise e →
          test_geofence req w = (Ok (TestResponse (Failed e) 500), [])) ∧
  (∀ lat s e,
     hub_outcome (float_param req "lat" 36.5273%Q w) = Ok lat →
     params req !! "lon" = Some s → float_of_string w s = Raise e →
     test_geofence req w = (Ok (TestResponse (Failed e) 500), [])) ∧
  (∀ lat lon,
     hub_outcome (float_param req "lat" 36.5273%Q w) = Ok lat →
     hub_outcome (float_param req "lon" 5.86945%Q w) = Ok lon →
     let r := process_geofence_event (test_event lat lon) "test-device" (base w) in
     base_events (hub_trace (test_geofence req w)) = trace r ∧
     (outcome r = Ok () →
      hub_outcome (test_geofence req w) = Ok (TestResponse (Completed lat lon) 200)) ∧
     (∀ e, outcome r = Raise e →
           hub_outcome (test_geofence req w) = Ok (TestResponse (Failed e) 500))).
Proof.
  split; [|split; [|split]].
  - rewrite test_geofence_run. unfold hub_outcome.
    destruct (float_param req "lat" _ w) as [[lat|e] t];
      [|eexists; split; [reflexivity|right; by eexists]].
    destruct (float_param req "lon" _ w) as [[lon|e] t'];
      [|eexists; split; [reflexivity|right; by eexists]].
    cbv zeta. cbn [fst].
    destruct (outcome _) as [[]|e]; eexists; (split; [reflexivity|]).
    + left. by eexists _, _.
    + right. by eexists.
  - intros s e Hs He. rewrite test_geofence_run. unfold float_param at 1.
    rewrite Hs. run_SM. by rewrite He.
  - intros lat s e Hlat Hs He. rewrite test_geofence_run.
    pose proof (float_param_trace req "lat" 36.5273%Q w) as Ht.
    revert Hlat Ht. unfold hub_outcome.
    destruct (float_param req "lat" _ w) as [[lat'|] t]; [|discriminate].
    cbn [fst snd]. intros _ ->.
    unfold float_param. rewrite Hs. run_SM. by rewrite He.
  - intros lat lon Hlat Hlon r. subst r. rewrite test_geofence_run.
    pose proof (float_param_trace req "lat" 36.5273%Q w) as Ht.
    pose proof (float_param_trace req "lon" 5.86945%Q w) as Ht'.
    revert Hlat Hlon Ht Ht'. unfold hub_outcome, hub_trace.
    destruct (float_param req "lat" _ w) as [[lat'|] t]; [|discriminate].
    destruct (float_param req "lon" _ w) as [[lon'|] t']; [|discriminate].
    cbn [fst snd]. intros [= ->] [= ->] -> ->. cbn [app].
    split; [apply base_events_Base|]. split.
    + by intros ->.
    + by intros e ->.
Qed.

(** X19: for a latitude parameter that [float] reads as 0 the endpoint
    answers 200, check completed, although the event was dropped at the
    coordinate check: the boundary is not downloaded and nothing is
    evaluated. *)
Theorem test_geofence_zero_latitude (req : http_request) (w : hub_world)
    (lat : Q) (lon : float64) :
  hub_outcome (float_param req "lat" 36.5273%Q w) = Ok (Finite lat) →
  hub_outcome (float_param req "lon" 5.86945%Q w) = Ok lon →
  (lat == 0)%Q →
  hub_outcome (test_geofence req w)
  = Ok (TestResponse (Completed (Finite lat) lon) 200) ∧
  base_events (hub_trace (test_geofence req w))
  = [Log INFO (MsgProcessing "test-device" (test_event (Finite lat) lon));
     Log ERROR MsgNoCoordinates].
Proof.
  intros Hlat Hlon Hzero.
  assert (Hrun : process_geofence_event (test_event (Finite lat) lon) "test-device"
                   (base w)
                 = (Ok (), [Log INFO (MsgProcessing "test-device"
                                        (test_event (Finite lat) lon));
                            Log ERROR MsgNoCoordinates])).
  { apply (test_event_zero_latitude lat lon (base w) Hzero). }
  rewrite test_geofence_run.
  pose proof (float_param_trace req "lat" 36.5273%Q w) as Ht.
  pose proof (float_param_trace req "lon" 5.86945%Q w) as Ht'.
  revert Hlat Hlon Ht Ht'. unfold hub_outcome, hub_trace.
  destruct (float_param req "lat" _ w) as [[lat'|] t]; [|discriminate].
  destruct (float_param req "lon" _ w) as [[lon'|] t']; [|discriminate].
  cbn [fst snd]. intros [= ->] [= ->] -> ->. cbv zeta. rewrite Hrun.
  split; reflexivity.
Qed.

End triggers.

(** ** Container, credentials and nesting *)

Section configuration.
Import Py Eff Geo App Hub.
Context {G : Shapely}.

(** X20: [get_or_create_container] returns the client exactly when the
    connection string is set, the service accepts it, and the container
    client is obtained or, failing that, the container is created. *)
Theorem get_or_create_container_returns (name : string) (w : world) :
  (∃ conn, outcome (get_or_create_container name w) = Ok (conn, name))
  ↔ ∃ conn, environ w !! "STORAGE_CONNECTION_STRING" = Some conn ∧
            from_connection_string w conn = Ok () ∧
            (get_container_client w conn name = Ok ()
             ∨ create_container w conn name = Ok ()).
Proof.
  rewrite get_or_create_container_run. unfold outcome.
  destruct (environ w !! "STORAGE_CONNECTION_STRING") as [conn|];
    [|split; [intros [? [=]] | intros (? & [=] & _)]].
  destruct (from_connection_string w conn) as [[]|] eqn:Hconn.
  - destruct (get_container_client w conn name) as [[]|] eqn:Hget.
    + split; [|by eexists]. intros _. exists conn. auto.
    + destruct (create_container w conn name) as [[]|] eqn:Hcreate.
      * split; [|by eexists]. intros _. exists conn. auto.
      * split; [intros [? [=]]|]. intros (conn' & [= <-] & _ & [H|H]).
        -- rewrite Hget in H. discriminate.
        -- rewrite Hcreate in H. discriminate.
  - split; [intros [? [=]]|]. intros (conn' & [= <-] & H & _).
    rewrite Hconn in H. discriminate.
Qed.

Lemma send_attempts_log (l : level) (m : message) (t : list event) :
  send_attempts (Log l m :: t) = send_attempts t.
Proof. reflexivity. Qed.

Lemma send_attempts_app (t t' : list event) :
  send_attempts (t ++ t') = (send_attempts t ++ send_attempts t')%list.
Proof. apply omap_app. Qed.

(** X21: without [SendGridApiKey] in the environment no run of
    [process_geofence_event] attempts a send, whatever the event and the
    boundary. *)
Theorem no_credentials_no_send (event_body : value) (device_id : string) (w : world) :
  environ w !! "SendGridApiKey" = None →
  send_attempts (trace (process_geofence_event event_body device_id w)) = [].
Proof.
  intros Hkey. rewrite process_geofence_event_run. cbv zeta.
  destruct (extract_coordinates event_body) as [[lat lon]|]; [|reflexivity].
  destruct (is_none lat || is_none lon); [reflexivity|].
  rewrite load_geofence_run.
  destruct (environ w !! "STORAGE_CONNECTION_STRING") as [conn|]; [|reflexivity].
  destruct (from_connection_string w conn); [|reflexivity].
  cbv zeta. destruct (download_blob w conn _ _) as [g|]; [|reflexivity].
  destruct (point_in_geofence_total lat lon g w) as (v & t & -> & _ & _ & _ & Hs).
  unfold outcome, trace. cbn [fst snd].
  destruct (number v) as [[d|]|]; [| |unfold trace; cbn [snd];
    repeat (rewrite send_attempts_app || rewrite send_attempts_log);
    by rewrite Hs].
  - destruct (Qle_bool d 0); cbn [snd];
      repeat (rewrite send_attempts_app || rewrite send_attempts_log);
      rewrite Hs; [|reflexivity].
    rewrite send_geofence_alert_run, Hkey. reflexivity.
  - cbn [snd]. repeat (rewrite send_attempts_app || rewrite send_attempts_log).
    by rewrite Hs.
Qed.

(** X22: nesting a payload under [gps] does not change the coordinates
    read from it, as long as the payload has no [gps] member of its own. *)
Theorem gps_nesting (d g : gmap string value) :
  d !! "gps" = Some (VDict g) →
  g !! "gps" = None →
  extract_coordinates (VDict d) = extract_coordinates (VDict g).
Proof.
  intros Hd Hg. unfold extract_coordinates. cbn [get rbind]. by rewrite Hd, Hg.
Qed.

End configuration.

(** ** Worked examples for the further properties *)

Section more_examples.
Import Py Eff Geo App Hub Sample HubSample.
Local Existing Instance Planar.planar.

Lemma planar_distance_nonneg : distance_nonneg Planar.planar.
Proof. intros pt poly d [= H]. by apply ring_distance_nonneg in H. Qed.

Lemma stored_name_date_witness :
  date_of (blob_name "tracker-7" noon) = Some "2024-01-02".
Proof. exact (proj1 (stored_name_date "tracker-7" noon [] eq_refl)). Defined.

Lemma slash_in_device_id_shifts_date_witness :
  date_of (blob_name "fleet/tracker-7" noon) = Some "tracker-7-2024-01".
Proof. exact (slash_in_device_id_shifts_date "fleet" "tracker-7" noon eq_refl eq_refl). Defined.

Lemma dates_depend_on_name_set_witness :
  sorted (collect_dates stored_names)
  = sorted (collect_dates ["b/2024/02/10/..."; "a/2024/01/02/..."]).
Proof.
  apply dates_depend_on_name_set. intros name. unfold stored_names.
  rewrite !elem_of_cons, !elem_of_nil. tauto.
Defined.

Lemma list_gps_dates_answers_witness :
  outcome (list_gps_dates unlisted_world)
  = Ok (HttpResponse (ErrorBody StorageError) 500 None).
Proof.
  exact (proj2 (proj2 (list_gps_dates_answers unlisted_world))
           "UseDevelopmentStorage=true" StorageError eq_refl eq_refl eq_refl eq_refl).
Defined.

Lemma point_in_geofence_range_witness :
  ∃ v, outcome (point_in_geofence (VNum 36.5275) (VNum 5.8699) polygon_geometry
                  (local_world polygon_geometry)) = Ok v ∧
       (v = VNone ∨ v = VNaN ∨
        ∃ d, v = VNum d ∧ (d = (-999)%Q ∨ d = 999%Q ∨ (-50 <= d ∧ d <= 50)%Q)).
Proof.
  exact (point_in_geofence_range (VNum 36.5275) (VNum 5.8699) polygon_geometry
           (local_world polygon_geometry) planar_distance_nonneg).
Defined.

Lemma malformed_boundary_outside_witness :
  outcome (point_in_geofence (VNum 36.5275) (VNum 5.8699) (feature_collection [])
             (local_world (feature_collection [])))
  = Ok (VNum 999).
Proof.
  apply malformed_boundary_outside. right. eexists. split; [reflexivity|].
  right. left. split; [reflexivity|]. right. reflexivity.
Defined.

Lemma evaluation_error_no_alert_witness :
  outcome (process_geofence_event (VDict (event 36.5275 5.8699)) "tracker-7"
             (local_world (feature_collection [])))
  = Ok () ∧
  alert_calls (trace (process_geofence_event (VDict (event 36.5275 5.8699)) "tracker-7"
                        (local_world (feature_collection []))))
  = [].
Proof.
  pose proof (evaluation_error_no_alert (VDict (event 36.5275 5.8699)) "tracker-7"
                (local_world (feature_collection [])) (VNum 36.5275) (VNum 5.8699)
                (feature_collection []) IndexError
                eq_refl eq_refl eq_refl eq_refl eq_refl) as (Hout & _ & Hcalls).
  split; [exact Hout | exact Hcalls].
Defined.

Lemma boundary_downloaded_once_witness :
  downloads (trace (process_geofence_event (VDict (event 36.5275 5.8699)) "tracker-7"
                      (local_world polygon_geometry)))
  = [("UseDevelopmentStorage=true", "geofences", "geofence/geofence.json")].
Proof.
  exact (boundary_downloaded_once (VDict (event 36.5275 5.8699)) "tracker-7"
           (local_world polygon_geometry) (VNum 36.5275) (VNum 5.8699)
           "UseDevelopmentStorage=true" eq_refl eq_refl eq_refl eq_refl eq_refl).
Defined.

Lemma load_failure_no_alert_witness :
  outcome (process_geofence_event (VDict (event 36.5275 5.8699)) "tracker-7"
             unlisted_world)
  = Raise StorageError.
Proof.
  exact (proj1 (load_failure_no_alert (VDict (event 36.5275 5.8699)) "tracker-7"
                  unlisted_world (VNum 36.5275) (VNum 5.8699) StorageError
                  eq_refl eq_refl eq_refl eq_refl)).
Defined.

Lemma gps_member_shadows_top_level_witness :
  shadowed_payload !! "lat" = Some (VNum 36.5275) ∧
  outcome (process_geofence_event (VDict shadowed_payload) "tracker-7"
             (local_world polygon_geometry)) = Ok () ∧
  downloads (trace (process_geofence_event (VDict shadowed_payload) "tracker-7"
                      (local_world polygon_geometry))) = [].
Proof.
  split; [reflexivity|].
  rewrite (gps_member_shadows_top_level shadowed_payload ∅ "tracker-7"
             (local_world polygon_geometry) eq_refl).
  - split; reflexivity.
  - repeat split; reflexivity.
Defined.

Lemma configured_alert_sends_once_witness :
  length (send_attempts (trace (send_geofence_alert (VNum 36.5275) (VNum 5.8699) (-999)
                                  "tracker-7" (mail_world polygon_geometry)))) = 1%nat.
Proof.
  destruct (configured_alert_sends_once (VNum 36.5275) (VNum 5.8699) (-999) "tracker-7"
              "SG.key" (mail_world polygon_geometry) eq_refl) as (m & -> & _).
  reflexivity.
Defined.

Lemma geofence_trigger_never_raises_witness :
  hub_trace (geofence_trigger {| body := Raise ValueError; iothub_metadata := VDict ∅ |}
               (hub (local_world polygon_geometry)))
  = [HubLog INFO MsgGeofenceStarted; HubLog ERROR (MsgGeofenceFailed ValueError)].
Proof.
  exact (proj2 (proj2 (geofence_trigger_never_raises
                         {| body := Raise ValueError; iothub_metadata := VDict ∅ |}
                         (hub (local_world polygon_geometry))))
           ValueError eq_refl).
Defined.

Lemma geofence_trigger_device_id_witness :
  event 36.5275 5.8699 !! "deviceId" = Some (VStr "tracker-7") ∧
  alert_calls (base_events (hub_trace
    (geofence_trigger
       (iot_message (VDict (<[ "deviceId" := VStr "other" ]> (event 36.5275 5.8699))))
       (hub (local_world polygon_geometry)))))
  = [(VNum 36.5275, VNum 5.8699, near_edge_decision, "tracker-7")].
Proof.
  split; [reflexivity|].
  rewrite (proj1 (geofence_trigger_device_id
                    (iot_message (VDict (<[ "deviceId" := VStr "other" ]>
                                           (event 36.5275 5.8699))))
                    (hub (local_world polygon_geometry))
                    {[ "connection-device-id" := VStr "tracker-7" ]}
                    (<[ "deviceId" := VStr "other" ]> (event 36.5275 5.8699))
                    eq_refl eq_refl) "tracker-7" eq_refl ltac:(discriminate)).
  reflexivity.
Defined.

Lemma geofence_trigger_other_type_witness :
  hub_outcome (geofence_trigger (iot_message (VDict (event 36.5275 5.8699)))
                 (hub (local_world point_geometry)))
  = Ok () ∧
  last (hub_trace (geofence_trigger (iot_message (VDict (event 36.5275 5.8699)))
                     (hub (local_world point_geometry))))
  = Some (HubLog ERROR (MsgGeofenceFailed TypeError)).
Proof.
  pose proof (geofence_trigger_other_type (iot_message (VDict (event 36.5275 5.8699)))
                (hub (local_world point_geometry)) (VDict (event 36.5275 5.8699))
                (VStr "tracker-7") (VNum 36.5275) (VNum 5.8699) point_geometry
                point_geometry (VStr "Point") near_edge
                eq_refl eq_refl eq_refl eq_refl eq_refl eq_refl eq_refl eq_refl eq_refl
                eq_refl) as (Hout & Hlast & _).
  split; [exact Hout | exact Hlast].
Defined.

Lemma eventhub_trigger_never_raises_witness :
  uploads (hub_trace (eventhub_trigger
                        {| body := Raise ValueError; iothub_metadata := VDict ∅ |}
                        (hub (local_world polygon_geometry))))
  = [].
Proof.
  exact (proj2 (proj2 (proj2 (eventhub_trigger_never_raises
                                {| body := Raise ValueError; iothub_metadata := VDict ∅ |}
                                (hub (local_world polygon_geometry)))))
           ValueError eq_refl).
Defined.

Lemma eventhub_trigger_stores_witness :
  lacks_coordinates bare_payload ∧
  ∃ data, uploads (hub_trace (eventhub_trigger (plain_message (VDict bare_payload))
                                (hub (local_world polygon_geometry))))
          = [("UseDevelopmentStorage=true", "gps-data",
              blob_name "tracker-9" noon, VDict data)] ∧
          data !! "gps" = Some (VDict bare_payload).
Proof.
  split; [repeat split; reflexivity|].
  destruct (eventhub_trigger_stores (plain_message (VDict bare_payload))
              (hub (local_world polygon_geometry)) ∅ bare_payload (VStr "tracker-9")
              "UseDevelopmentStorage=true" eq_refl eq_refl eq_refl eq_refl eq_refl eq_refl)
    as (data & n & Hup & _ & Hgps & _).
  exists data. split; [exact Hup | exact Hgps].
Defined.

Lemma test_geofence_answers_witness :
  test_geofence east_request (hub (local_world polygon_geometry))
  = (Ok (TestResponse (Failed ValueError) 500), []).
Proof.
  exact (proj1 (proj2 (proj2 (test_geofence_answers east_request
                                (hub (local_world polygon_geometry)))))
           (Finite 0) "east" ValueError eq_refl eq_refl eq_refl).
Defined.

Lemma test_geofence_zero_latitude_witness :
  hub_outcome (test_geofence zero_request (hub (local_world polygon_geometry)))
  = Ok (TestResponse (Completed (Finite 0) (Finite 5.86945)) 200).
Proof.
  exact (proj1 (test_geofence_zero_latitude zero_request
                  (hub (local_world polygon_geometry)) 0%Q (Finite 5.86945)
                  eq_refl eq_refl ltac:(reflexivity))).
Defined.

Lemma no_credentials_no_send_witness :
  length (alert_calls (trace (process_geofence_event (VDict (event 36.5275 5.8699))
                                "tracker-7" (local_world polygon_geometry)))) = 1%nat ∧
  send_attempts (trace (process_geofence_event (VDict (event 36.5275 5.8699)) "tracker-7"
                          (local_world polygon_geometry))) = [].
Proof.
  split; [by vm_compute|].
  exact (no_credentials_no_send (VDict (event 36.5275 5.8699)) "tracker-7"
           (local_world polygon_geometry) eq_refl).
Defined.

Lemma gps_nesting_witness :
  extract_coordinates (VDict {[ "gps" := VDict (event 36.5275 5.8699) ]})
  = extract_coordinates (VDict (event 36.5275 5.8699)).
Proof.
  apply gps_nesting; by vm_compute.
Defined.

Lemma date_of_some_iff_witness : is_Some (date_of (blob_name "tracker-7" noon)).
Proof. apply date_of_some_iff. vm_compute. lia. Defined.

Lemma get_or_create_container_returns_witness :
  ∃ conn, outcome (get_or_create_container "gps-data" (local_world VNone))
          = Ok (conn, "gps-data").
Proof.
  apply get_or_create_container_returns. exists "UseDevelopmentStorage=true".
  split; [by vm_compute|]. split; [reflexivity|]. by left.
Defined.

End more_examples.
